(** * SSURGO-QA geometry checks: sliver angles and short segments

    A shallow embedding of the scanning code of [QA_SliverFinder.py] and
    [QA_VertexProblems.py], and the properties of it that the specification
    states.

    Numbers are the interpreter's: coordinates, lengths and areas are IEEE
    binary64 values (Rocq's primitive floats), angles and counters are
    integers.  What an arithmetic operator of the language may raise
    ([OverflowError] from [**], [ZeroDivisionError] from [/], [ValueError]
    from [math.acos]) is part of the model, because [GetAngleFromPoints]
    turns every exception into the angle [-1].  The values of the C
    library's [acos], [hypot] and [pow] are a parameter ([Libm]).

    The geodatabase host (cursors, layers, spatial references) is outside
    the two files: the rows read from a search cursor are a list, the rows
    written through an insert cursor are a list, a spatial reference is the
    record of the four attributes the code reads, and creating a table or a
    layer succeeds.  The angle threshold [minAngle] is an integer. *)

From Stdlib Require Import ZArith List Bool String Ascii Floats Lia.
From Stdlib Require Import Sorted Permutation DecimalString.
Import ListNotations.

#[local] Set Warnings "-inexact-float".
#[local] Open Scope Z_scope.

(** ** The interpreter: exceptions, floats, strings, dictionaries *)

Module Py.

Inductive exn : Type :=
| IndexError | KeyError | NameError | OverflowError
| ValueError | ZeroDivisionError | SystemExit.

(** A computation that may raise. *)
Definition result (A : Type) : Type := (exn + A)%type.

Definition ret {A : Type} (a : A) : result A := inr a.
Definition raise {A : Type} (e : exn) : result A := inl e.
Definition bind {A B : Type} (c : result A) (k : A -> result B) : result B :=
  match c with
  | inl e => inl e
  | inr a => k a
  end.

(** [seq[i]] for a non-negative index. *)
Definition index {A : Type} (l : list A) (i : nat) : result A :=
  match nth_error l i with
  | Some a => ret a
  | None => raise IndexError
  end.

(** *** Floats *)

(** [x / y]. *)
Definition float_div (x y : float) : result float :=
  if (y =? 0)%float then raise ZeroDivisionError else ret (x / y)%float.

(** [math.sqrt]. *)
Definition math_sqrt (x : float) : result float :=
  if (x <? 0)%float then raise ValueError else ret (sqrt x).

(** [math.degrees x] is [x * (180.0 / pi)]. *)
Definition pi : float := 0x1.921fb54442d18p+1%float.
Definition math_degrees (x : float) : float := (x * (180 / pi))%float.

(** What a C library call leaves in [errno]: nothing, [ERANGE], or
    another value ([EDOM] stands for all of them). *)
Inductive errno : Type := ENONE | ERANGE | EDOM.

(** The C library behind [math] and behind [**]: [acos] on its domain
    [[-1, 1]], [hypot], and [pow] with the [errno] it leaves.  Their values
    are the platform's ([pow] need not be correctly rounded); the code is
    modelled for every such library. *)
Class Libm : Type := {
  libm_acos : float -> float;
  libm_hypot : float -> float -> float;
  libm_pow : float -> float -> float * errno
}.

(** The interpreter's adjustment of [errno] after [pow]: an infinite
    result is a range error whatever the library said, and a range error
    with result zero (an underflow) is dropped. *)
Definition adjust_erange (ix : float) (e : errno) : errno :=
  match e with
  | ENONE => if is_infinity ix then ERANGE else ENONE
  | ERANGE => if (ix =? 0)%float then ENONE else ERANGE
  | EDOM => EDOM
  end.

(** [x ** 2] on a float, the exponent converted to [2.0]: a NaN is passed
    through, an infinity gives [fabs x], a zero gives [0.0], [1] and [-1]
    give [1.0]; every other base goes to the library's [pow] by its
    absolute value (the exponent is even, the result is not negated), and
    what is left in [errno] is raised: [OverflowError] for a range error,
    [ValueError] otherwise. *)
Definition float_pow2 `{Libm} (x : float) : result float :=
  if is_nan x then ret x
  else if is_infinity x then ret (abs x)
  else if (x =? 0)%float then ret 0%float
  else
    let iv := if (x <? 0)%float then (- x)%float else x in
    if (iv =? 1)%float then ret 1%float
    else
      let (ix, e) := libm_pow iv 2 in
      match adjust_erange ix e with
      | ENONE => ret ix
      | ERANGE => raise OverflowError
      | EDOM => raise ValueError
      end.

(** [math.acos]: a NaN is passed through, an argument outside [[-1, 1]]
    is a domain error. *)
Definition math_acos `{Libm} (x : float) : result float :=
  if is_nan x then ret x
  else if ((-1 <=? x) && (x <=? 1))%float then ret (libm_acos x)
  else raise ValueError.

(** The integer nearest to [n / d] for [0 < d], ties to the even one. *)
Definition div_half_even (n d : Z) : Z :=
  let q := n / d in
  match 2 * (n mod d) ?= d with
  | Lt => q
  | Gt => q + 1
  | Eq => if Z.even q then q else q + 1
  end.

(** [m * 2^e * 10^ndigits] rounded to an integer, ties to even. *)
Definition scaled_half_even (m : positive) (e : Z) (ndigits : Z) : Z :=
  let n := Z.pos m * 10 ^ ndigits in
  match e with
  | Zneg p => div_half_even n (2 ^ Z.pos p)
  | _ => n * 2 ^ e
  end.

(** [round(x, ndigits)] for [0 <= ndigits]: the double nearest to the
    decimal with [ndigits] places nearest to [x] (ties to even on the
    exact value of [x]); zeros, infinities and NaN round to themselves. *)
Definition round (x : float) (ndigits : Z) : float :=
  match Prim2SF x with
  | S754_finite s m e =>
      match scaled_half_even m e ndigits with
      | Z.pos k =>
          SF2Prim (SFdiv prec emax (S754_finite s k 0)
                         (S754_finite false (Z.to_pos (10 ^ ndigits)) 0))
      | _ => if s then neg_zero else zero
      end
  | _ => x
  end.

(** [int(x)]: truncation toward zero. *)
Definition int (x : float) : result Z :=
  match Prim2SF x with
  | S754_zero _ => ret 0
  | S754_finite s m e =>
      let a := match e with
               | Zneg p => Z.pos m / 2 ^ Z.pos p
               | _ => Z.pos m * 2 ^ e
               end in
      ret (if s then - a else a)
  | S754_infinity _ => raise OverflowError
  | S754_nan => raise ValueError
  end.

(** [float(n)] for a count [n] (exact below [2^53]). *)
Definition float_of_int (n : Z) : float :=
  match n with
  | Z0 => zero
  | Zpos _ => of_uint63 (Uint63.of_Z n)
  | Zneg _ => (- of_uint63 (Uint63.of_Z (- n)))%float
  end.

(** *** Strings *)

(** [str(n)] for an integer. *)
Definition str (n : Z) : string := NilZero.string_of_int (Z.to_int n).

Definition lower_ascii (c : ascii) : ascii :=
  let n := nat_of_ascii c in
  if (65 <=? n)%nat && (n <=? 90)%nat then ascii_of_nat (n + 32) else c.

Definition upper_ascii (c : ascii) : ascii :=
  let n := nat_of_ascii c in
  if (97 <=? n)%nat && (n <=? 122)%nat then ascii_of_nat (n - 32) else c.

Fixpoint map_string (f : ascii -> ascii) (s : string) : string :=
  match s with
  | EmptyString => EmptyString
  | String c s' => String (f c) (map_string f s')
  end.

Definition lower : string -> string := map_string lower_ascii.
Definition upper : string -> string := map_string upper_ascii.

Definition startswith (s p : string) : bool := String.prefix p s.

(** [s.replace(old, new)] for a non-empty [old]: the occurrences of [old]
    are replaced left to right, without overlap.  [skip] counts the
    characters of an occurrence still to be dropped. *)
Fixpoint replace_from (old new : string) (skip : nat) (s : string) : string :=
  match s with
  | EmptyString => EmptyString
  | String c s' =>
      match skip with
      | S k => replace_from old new k s'
      | O =>
          if String.prefix old s
          then (new ++ replace_from old new (String.length old - 1) s')%string
          else String c (replace_from old new 0 s')
      end
  end.

Definition replace (s old new : string) : string := replace_from old new 0 s.

(** [sep.join(l)]. *)
Fixpoint join (sep : string) (l : list string) : string :=
  match l with
  | [] => EmptyString
  | [s] => s
  | s :: rest => (s ++ sep ++ join sep rest)%string
  end.

(** *** Dictionaries

    A [dict] keeps its items in insertion order; assigning to a key that
    is present replaces the value in place. *)
Definition dict (V : Type) : Type := list (Z * V).

Fixpoint dict_get {V : Type} (k : Z) (d : dict V) : option V :=
  match d with
  | [] => None
  | (k', v) :: rest => if k =? k' then Some v else dict_get k rest
  end.

Fixpoint dict_set {V : Type} (k : Z) (v : V) (d : dict V) : dict V :=
  match d with
  | [] => [(k, v)]
  | (k', v') :: rest =>
      if k =? k' then (k, v) :: rest else (k', v') :: dict_set k v rest
  end.

Definition keys {V : Type} (d : dict V) : list Z := map fst d.
Definition values {V : Type} (d : dict V) : list V := map snd d.

(** [sorted(items, key=lambda x: x[1])] on integer values: ascending and
    stable, as the language guarantees.  Insertion from the right puts an
    item in front of the first one that is not smaller. *)
Fixpoint insert_item {K : Type} (x : K * Z) (l : list (K * Z)) : list (K * Z) :=
  match l with
  | [] => [x]
  | y :: rest =>
      if snd x <=? snd y then x :: y :: rest else y :: insert_item x rest
  end.

Fixpoint sorted {K : Type} (l : list (K * Z)) : list (K * Z) :=
  match l with
  | [] => []
  | x :: rest => insert_item x (sorted rest)
  end.

End Py.

Import Py.

Notation "x <- c ;; k" := (bind c (fun x => k))
  (at level 61, c at next level, right associativity).

(** ** Messages and geometry, common to both tools *)

(** What the tools tell the user.  [AddMsg text severity] is
    [AddMsgAndPrint(text, severity)] (0 information, 1 warning, 2 error);
    [Traceback e] is the report [errorMsg()] makes of the exception [e];
    [FidFeat fid] is the error-severity line that names the polygon [fid]
    and prints the host's text for its geometry.  Progress labels, and
    information lines that only echo the parameters through the host's
    number formatting, are not kept. *)
Inductive msg : Type :=
| AddMsg (text : string) (severity : Z)
| Traceback (e : exn)
| FidFeat (fid : Z).

Definition nl : string := String (ascii_of_nat 10) EmptyString.

(** [errorMsg()]: a traceback that mentions [exit] is replaced by two
    blank lines. *)
Definition errorMsg (e : exn) : msg :=
  match e with
  | SystemExit => AddMsg (nl ++ nl)%string 0
  | _ => Traceback e
  end.

(** [(pnt.X, pnt.Y)]. *)
Definition Point : Type := (float * float)%type.

(** A part of a polygon as the host hands it out: its vertices in ring
    order, a null ([None]) in front of every interior ring. *)
Definition Part : Type := list (option Point).

(** A geometry object: its parts (iteration order) and the host's
    [pointCount]. *)
Record Geometry : Type := {
  parts : list Part;
  pointCount : Z
}.

Definition partCount (feat : Geometry) : Z := Z.of_nat (List.length (parts feat)).

(** The attributes read from a spatial reference object. *)
Record SpatialReference : Type := {
  name : string;
  datumName : string;      (* GCS.datumName *)
  type : string;
  linearUnitName : string
}.

(** [arcpy.SpatialReference(3857)], as [CreateWebMercaturSR] returns it. *)
Definition CreateWebMercaturSR : SpatialReference :=
  {| name := "WGS_1984_Web_Mercator_Auxiliary_Sphere";
     datumName := "D_WGS_1984";
     type := "Projected";
     linearUnitName := "Meter" |}.

(** [theUnits], as both main programs compute it from the final output
    reference. *)
Definition normalize_units (linearUnitName : string) : string :=
  let theUnits := lower linearUnitName in
  let theUnits := replace theUnits "foot" "feet" in
  replace theUnits "meter" "meters".

Definition unit_abbrev (theUnits : string) : string :=
  if startswith theUnits "meter" then "m"%string else "ft"%string.

(** What a main program hands to [ProcessLayer]. *)
Record Config : Type := {
  outputSR : SpatialReference;
  theUnits : string;
  unitAbbrev : string
}.

(** The part of a main program from the datum test to the call of
    [ProcessLayer]: the messages, and the configuration [ProcessLayer] is
    called with ([None] when it is never called).  [requested] is the
    output reference parameter, its [name] empty when the user gave none. *)
Record Setup : Type := {
  setup_log : list msg;
  setup_call : option Config
}.

Definition chosen_reference (inputSR requested : SpatialReference)
  : SpatialReference * string :=
  if String.eqb (name requested) ""
  then (inputSR, datumName inputSR)
  else (requested, datumName requested).

Definition configure (sr : SpatialReference) : Config :=
  let u := normalize_units (linearUnitName sr) in
  {| outputSR := sr; theUnits := u; unitAbbrev := unit_abbrev u |}.

(** ** QA_SliverFinder.py *)

Module SliverFinder.
Section WithLibm.
Context {libm : Libm}.

(** One side of the triangle: [dx = pntList[i][0] - pntList[j][0]],
    [dy] likewise, [math.sqrt(dx**2 + dy**2)]. *)
Definition side (pntList : list Point) (i j : nat) : result float :=
  p <- index pntList i ;;
  q <- index pntList j ;;
  let dx := (fst p - fst q)%float in
  let dy := (snd p - snd q)%float in
  dx2 <- float_pow2 dx ;;
  dy2 <- float_pow2 dy ;;
  math_sqrt (dx2 + dy2)%float.

(** [mAB], [mBC] and [mCA], in the order the code computes them. *)
Definition sides (pntList : list Point) (iPnt : nat)
  : result (float * float * float) :=
  mAB <- side pntList (1 + iPnt) (0 + iPnt) ;;
  mBC <- side pntList (2 + iPnt) (1 + iPnt) ;;
  mCA <- side pntList (0 + iPnt) (2 + iPnt) ;;
  ret (mAB, mBC, mCA).

(** [(mAB**2 + mBC**2 - mCA**2) / (2 * mAB * mBC)]. *)
Definition cosine_ratio (mAB mBC mCA : float) : result float :=
  a2 <- float_pow2 mAB ;;
  b2 <- float_pow2 mBC ;;
  c2 <- float_pow2 mCA ;;
  float_div (a2 + b2 - c2)%float (2 * mAB * mBC)%float.

(** [int(round(math.degrees(math.acos(p)), 0))]. *)
Definition angle_of_cosine (p : float) : result Z :=
  r <- math_acos p ;;
  int (round (math_degrees r) 0).

(** [GetAngleFromPoints(pntList, iPnt)]: the angle it returns and the
    messages it sends. *)
Definition GetAngleFromPoints (pntList : list Point) (iPnt : nat)
  : Z * list msg :=
  match sides pntList iPnt with
  | inl e => (-1, [errorMsg e])
  | inr (mAB, mBC, mCA) =>
      if ((mAB =? 0) || (mBC =? 0))%float
      then (0, [AddMsg ("Failed to calculate angle at point "
                          ++ str (Z.of_nat iPnt))%string 0])
      else
        match (q <- cosine_ratio mAB mBC mCA ;;
               angle_of_cosine (round q 10)) with
        | inl e => (-1, [errorMsg e])
        | inr theAngle => (theAngle, [])
        end
  end.

(** A flagged location: the three vertices, the polygon id, the angle. *)
Definition Sliver : Type := ((Point * Point * Point) * Z * Z)%type.

Definition sliver_angle (d : Sliver) : Z := snd d.
Definition sliver_fid (d : Sliver) : Z := snd (fst d).

(** The accumulators of [ProcessLayer]'s reading loop. *)
Record State : Type := {
  iErr : Z;
  dLines : dict Sliver;
  dTest : dict Z;
  badPolys : list string;
  log : list msg
}.

Definition init : State :=
  {| iErr := 0; dLines := []; dTest := []; badPolys := []; log := [] |}.

Definition say (ms : list msg) (st : State) : State :=
  {| iErr := iErr st; dLines := dLines st; dTest := dTest st;
     badPolys := badPolys st; log := log st ++ ms |}.

Definition bump (st : State) : State :=
  {| iErr := iErr st + 1; dLines := dLines st; dTest := dTest st;
     badPolys := badPolys st; log := log st |}.

Definition flag (d : Sliver) (st : State) : State :=
  {| iErr := iErr st;
     dLines := dict_set (iErr st) d (dLines st);
     dTest := dict_set (iErr st) (sliver_angle d) (dTest st);
     badPolys := badPolys st; log := log st |}.

Definition bad (fid : Z) (st : State) : State :=
  {| iErr := iErr st; dLines := dLines st; dTest := dTest st;
     badPolys := badPolys st ++ [str fid]; log := log st |}.

(** The vertices of one part up to its first null. *)
Fixpoint collect (part : Part) (pntList : list Point) : list Point :=
  match part with
  | Some pnt :: rest => collect rest (pntList ++ [pnt])
  | None :: _ => pntList
  | [] => pntList
  end.

(** [for part in feat]: every part starts a new [pntList], fills it and
    appends its vertex 1 again; the list left when the loop ends is the
    one the angle loop reads. *)
Fixpoint walk (ps : list Part) (pntList : list Point) : result (list Point) :=
  match ps with
  | [] => ret pntList
  | part :: rest =>
      let pntList := collect part [] in
      v1 <- index pntList 1 ;;
      walk rest (pntList ++ [v1])
  end.

Definition triple (pntList : list Point) (iPnt : nat)
  : result (Point * Point * Point) :=
  a <- index pntList (0 + iPnt) ;;
  b <- index pntList (1 + iPnt) ;;
  c <- index pntList (2 + iPnt) ;;
  ret (a, b, c).

(** [for iPnt in range(numPnts)], the positions still to visit in [todo];
    an exception in the body ends the loop. *)
Fixpoint scan (pntList : list Point) (fid minAngle : Z) (todo : list nat)
    (st : State) : State :=
  match todo with
  | [] => st
  | iPnt :: rest =>
      let (theAngle, ms) := GetAngleFromPoints pntList iPnt in
      let st := say ms st in
      if theAngle <=? minAngle then
        let st := bump st in
        match triple pntList iPnt with
        | inr t => scan pntList fid minAngle rest (flag (t, fid, theAngle) st)
        | inl _ => st
        end
      else scan pntList fid minAngle rest st
  end.

(** A row of the search cursor: [OID@] and [SHAPE@]. *)
Definition Row : Type := (Z * option Geometry)%type.

(** The body of [for row in sCursor]. *)
Definition read_row (minAngle : Z) (st : State) (row : Row) : State :=
  let (fid, feat) := row in
  match feat with
  | Some g =>
      if 0 <? partCount g then
        match walk (parts g) [] with
        | inr pntList =>
            scan pntList fid minAngle (seq 0 (List.length pntList - 2)) st
        | inl e => say [FidFeat fid; errorMsg e] st
        end
      else bad fid st
  | None => bad fid st
  end.

Definition read_rows (minAngle : Z) (rows : list Row) : State :=
  fold_left (read_row minAngle) rows init.

(** Rows of the two output layers. *)
Definition LineRow : Type := (list Point * Z * Z)%type.
Definition PointRow : Type := (Point * Z * string)%type.

Definition degree_sign : string := String (ascii_of_nat 176) EmptyString.

Definition line_row (d : Sliver) : LineRow :=
  let '((p0, p1, p2), fid, theAngle) := d in ([p0; p1; p2], fid, theAngle).

Definition point_row (d : Sliver) : PointRow :=
  let '((p0, p1, p2), fid, theAngle) := d in
  (p1, fid, (str theAngle ++ degree_sign)%string).

(** [for key in dAngles: ... dLines[key] ... insertRow]: the rows written
    before a key is missing, and whether one was. *)
Fixpoint lookup_all (ks : list Z) (d : dict Sliver) : list Sliver * bool :=
  match ks with
  | [] => ([], true)
  | k :: rest =>
      match dict_get k d with
      | Some v => let (vs, ok) := lookup_all rest d in (v :: vs, ok)
      | None => ([], false)
      end
  end.

Record Output : Type := {
  returned : bool;
  messages : list msg;
  lineRows : list LineRow;
  pointRows : list PointRow
}.

(** [ProcessLayer(inLayer, outputSR, minAngle, iSelection)] on the rows
    the cursor yields. *)
Definition ProcessLayer (rows : list Row) (minAngle : Z) : Output :=
  let st := read_rows minAngle rows in
  if (0 <? List.length (badPolys st))%nat then
    {| returned := false;
       messages := log st ++
         [AddMsg ("Bad polygon geometry detected for the following polygons: "
                    ++ join ", " (badPolys st) ++ " " ++ nl ++ " ")%string 2];
       lineRows := []; pointRows := [] |}
  else
    let dAngles := sorted (dTest st) in
    if (0 <? List.length (dLines st))%nat then
      let (found, ok) := lookup_all (keys dAngles) (dLines st) in
      if ok then
        {| returned := true; messages := log st;
           lineRows := map line_row found; pointRows := map point_row found |}
      else
        {| returned := false; messages := log st ++ [errorMsg KeyError];
           lineRows := map line_row found; pointRows := [] |}
    else
      {| returned := true; messages := log st; lineRows := []; pointRows := [] |}.

(** The main program from the datum test on. *)
Definition main (inputSR requested : SpatialReference) : Setup :=
  let (sr, outputDatum) := chosen_reference inputSR requested in
  let inputDatum := datumName inputSR in
  let m1 := if String.eqb inputDatum outputDatum then []
            else [AddMsg "Input and output datums do not match" 2] in
  let (m2, sr) :=
    if negb (String.eqb (upper (type sr)) "PROJECTED") then
      if String.eqb inputDatum "D_North_American_1983"
         || String.eqb inputDatum "D_WGS_1984"
      then ([AddMsg (nl ++ "Input layer coordinate system is not projected, switching to Web Mercatur (meters)")%string 1],
            CreateWebMercaturSR)
      else ([AddMsg ("Unable to handle output coordinate system: "
                       ++ name sr ++ " " ++ nl ++ outputDatum)%string 2], sr)
    else ([AddMsg (nl ++ "Final output coordinate system: " ++ name sr)%string 0], sr) in
  {| setup_log := m1 ++ m2; setup_call := Some (configure sr) |}.

End WithLibm.
End SliverFinder.

(** ** QA_VertexProblems.py *)

Module VertexProblems.
Section WithLibm.
Context {libm : Libm}.

(** A flagged segment: [[(xm, ym), fid, dist]]. *)
Definition MidPnt : Type := (Point * Z * float)%type.

(** A row of the statistics table:
    POLYID, ACRES, VERTICES, AVI, MIN_DIST, MULTIPART. *)
Record StatsRow : Type := {
  POLYID : Z;
  ACRES : float;
  VERTICES : Z;
  AVI : float;
  MIN_DIST : float;
  MULTIPART : Z
}.

(** The variables of [ProcessLayer]'s reading loop.  [iPnts], [iSeg] and
    [iPartCnt] are assigned inside the loop only, so they are unbound
    ([None]) until a polygon with a geometry has been read.  [statsRows]
    are the rows already inserted into the statistics table. *)
Record State : Type := {
  iCnt : Z;
  dPoints : dict (list MidPnt);
  bHasMultiPart : bool;
  iPnts : option Z;
  iSeg : option float;
  iPartCnt : option Z;
  statsRows : list StatsRow;
  log : list msg
}.

Definition init : State :=
  {| iCnt := 0; dPoints := []; bHasMultiPart := false;
     iPnts := None; iSeg := None; iPartCnt := None;
     statsRows := []; log := [] |}.

Definition say (ms : list msg) (st : State) : State :=
  {| iCnt := iCnt st; dPoints := dPoints st; bHasMultiPart := bHasMultiPart st;
     iPnts := iPnts st; iSeg := iSeg st; iPartCnt := iPartCnt st;
     statsRows := statsRows st; log := log st ++ ms |}.

(** The head of the loop body for a polygon that has a geometry. *)
Definition enter (fid : Z) (feat : Geometry) (st : State) : State :=
  let n := partCount feat in
  {| iCnt := iCnt st; dPoints := dPoints st;
     bHasMultiPart := if (n =? 1) || (n =? 0) then bHasMultiPart st else true;
     iPnts := Some (pointCount feat);
     iSeg := Some 1000000%float;
     iPartCnt := Some (if n =? 1 then 0 else n);
     statsRows := statsRows st;
     log := log st ++
            (if n =? 0
             then [AddMsg ("Bad geometry for polygon #" ++ str fid)%string 2]
             else []) |}.

(** One measured segment: the running minimum, and the flag when the
    segment is shorter than [minDist]. *)
Definition measure (fid : Z) (minDist : float) (p0 p1 : Point) (st : State)
  : State :=
  let dist := libm_hypot (fst p0 - fst p1)%float (snd p0 - snd p1)%float in
  let seg := match iSeg st with
             | Some s => if (dist <? s)%float then Some dist else Some s
             | None => None
             end in
  if (dist <? minDist)%float then
    let xm := ((fst p0 + fst p1) / 2)%float in
    let ym := ((snd p0 + snd p1) / 2)%float in
    let midPnt : MidPnt := ((xm, ym), fid, dist) in
    {| iCnt := iCnt st + 1;
       dPoints := match dict_get fid (dPoints st) with
                  | Some pnts => dict_set fid (pnts ++ [midPnt]) (dPoints st)
                  | None => dict_set fid [midPnt] (dPoints st)
                  end;
       bHasMultiPart := bHasMultiPart st;
       iPnts := iPnts st; iSeg := seg; iPartCnt := iPartCnt st;
       statsRows := statsRows st; log := log st |}
  else
    {| iCnt := iCnt st; dPoints := dPoints st;
       bHasMultiPart := bHasMultiPart st;
       iPnts := iPnts st; iSeg := seg; iPartCnt := iPartCnt st;
       statsRows := statsRows st; log := log st |}.

(** [for pnt in part]: a vertex is appended to [pntList]; with two in the
    list the segment is measured and the older vertex dropped; a null
    ends the part. *)
Fixpoint scan_part (fid : Z) (minDist : float) (part : Part)
    (pntList : list Point) (st : State) : State :=
  match part with
  | [] => st
  | None :: _ => st
  | Some pnt :: rest =>
      match pntList ++ [pnt] with
      | [p0; p1] => scan_part fid minDist rest [p1] (measure fid minDist p0 p1 st)
      | pntList' => scan_part fid minDist rest pntList' st
      end
  end.

(** [for part in feat]; [pnt0 = part[0]] raises on an empty part. *)
Fixpoint scan_parts (fid : Z) (minDist : float) (ps : list Part) (st : State)
  : exn + State :=
  match ps with
  | [] => inr st
  | part :: rest =>
      match part with
      | [] => inl IndexError
      | _ => scan_parts fid minDist rest (scan_part fid minDist part [] st)
      end
  end.

(** A row of the search cursor:
    [OID@], [SHAPE@], [SHAPE@AREA], [SHAPE@LENGTH]. *)
Record Row : Type := {
  fid : Z;
  feat : option Geometry;
  theArea : float;
  thePerimeter : float
}.

(** The acre value of an area in the units [theUnits]; [None] is the
    branch that reports the unit and returns [False]. *)
Definition acres_of (theUnits : string) (theArea : float) : option float :=
  if String.eqb theUnits "meters" then Some (theArea / 4046.85643)%float
  else if String.eqb theUnits "feet_us" then Some (theArea / 43560.0)%float
  else None.

(** How the body of the reading loop ends: the loop goes on, or
    [ProcessLayer] returns [False] there (by its own [return] or through
    its exception handler).  Either way the state holds what has been
    written. *)
Inductive Step : Type :=
| Continue (st : State)
| Stop (st : State).

Definition failed (e : exn) (st : State) : Step := Stop (say [errorMsg e] st).

(** The tail of the loop body: acres, average, the statistics row. *)
Definition write_stats (theUnits : string) (row : Row) (st : State) : Step :=
  match acres_of theUnits (theArea row) with
  | None =>
      Stop (say [AddMsg (nl ++ "Failed to calculate acre value using unit: "
                            ++ theUnits)%string 2] st)
  | Some acres =>
      match iPnts st, iSeg st, iPartCnt st with
      | Some n, Some seg, Some cnt =>
          match float_div (thePerimeter row) (float_of_int n) with
          | inl e => failed e st
          | inr avi =>
              let outRow := {| POLYID := fid row; ACRES := acres; VERTICES := n;
                               AVI := avi; MIN_DIST := seg; MULTIPART := cnt |} in
              Continue
                {| iCnt := iCnt st; dPoints := dPoints st;
                   bHasMultiPart := bHasMultiPart st;
                   iPnts := iPnts st; iSeg := iSeg st; iPartCnt := iPartCnt st;
                   statsRows := statsRows st ++ [outRow]; log := log st |}
          end
      | _, _, _ => failed NameError st
      end
  end.

(** The body of [for fid, feat, theArea, thePerimeter in sCursor]. *)
Definition read_row (theUnits : string) (minDist : float) (st : State)
    (row : Row) : Step :=
  match feat row with
  | Some g =>
      match scan_parts (fid row) minDist (parts g) (enter (fid row) g st) with
      | inl e => failed e (enter (fid row) g st)
      | inr st => write_stats theUnits row st
      end
  | None =>
      write_stats theUnits row
        (say [AddMsg ("NULL geometry for polygon #" ++ str (fid row))%string 2] st)
  end.

Fixpoint read_rows (theUnits : string) (minDist : float) (rows : list Row)
    (st : State) : Step :=
  match rows with
  | [] => Continue st
  | row :: rest =>
      match read_row theUnits minDist st row with
      | Continue st => read_rows theUnits minDist rest st
      | Stop st => Stop st
      end
  end.

Record Output : Type := {
  returned : bool;
  messages : list msg;
  statsTable : list StatsRow;
  pointRows : list MidPnt
}.

(** [ProcessLayer(inLayer, outputSR, outLayer, minDist, iSelection)] on
    the rows the cursor yields, with the globals [theUnits] it reads.
    [del outRow] raises when no row was read. *)
Definition ProcessLayer (theUnits : string) (rows : list Row)
    (outLayer : string) (minDist : float) : Output :=
  match read_rows theUnits minDist rows init with
  | Stop st =>
      {| returned := false; messages := log st;
         statsTable := statsRows st; pointRows := [] |}
  | Continue st =>
      match rows with
      | [] =>
          {| returned := false; messages := log st ++ [errorMsg NameError];
             statsTable := statsRows st; pointRows := [] |}
      | _ =>
          {| returned := true;
             messages := log st ++
               (if bHasMultiPart st
                then [AddMsg "Input layer has multipart polygons that require editing (explode)" 2]
                else []);
             statsTable := statsRows st;
             pointRows := if negb (String.eqb outLayer "")
                             && (0 <? List.length (dPoints st))%nat
                          then List.concat (values (dPoints st)) else [] |}
      end
  end.

(** The main program from the datum test on; [exit()] raises
    [SystemExit], which the handler of the main program reports. *)
Definition main (inputSR requested : SpatialReference) : Setup :=
  let (sr, outputDatum) := chosen_reference inputSR requested in
  let inputDatum := datumName inputSR in
  if negb (String.eqb inputDatum outputDatum) then
    {| setup_log := [AddMsg "Input and output datums do not match" 2;
                     errorMsg SystemExit];
       setup_call := None |}
  else
    let (m2, sr) :=
      if negb (String.eqb (upper (type sr)) "PROJECTED") then
        if String.eqb inputDatum "D_North_American_1983"
           || String.eqb inputDatum "D_WGS_1984"
        then ([AddMsg (" " ++ nl ++ "Input layer coordinate system is not projected, switching to Web Mercatur (meters)")%string 1],
              CreateWebMercaturSR)
        else ([AddMsg ("Unable to handle input coordinate system: "
                         ++ name inputSR ++ " " ++ nl ++ inputDatum)%string 2], sr)
      else ([AddMsg (nl ++ "Using  output coordinate system: " ++ name sr)%string 0], sr) in
    {| setup_log := m2; setup_call := Some (configure sr) |}.

End WithLibm.
End VertexProblems.

(** ** Number formatting of QA_SliverFinder.py *)

Definition is_digit (c : ascii) : bool :=
  let n := nat_of_ascii c in (48 <=? n)%nat && (n <=? 57)%nat.

(** [s[::-1]], with an accumulator. *)
Fixpoint rev_string (s acc : string) : string :=
  match s with
  | EmptyString => acc
  | String c s' => rev_string s' (String c acc)
  end.

Definition reversed (s : string) : string := rev_string s EmptyString.

(** [re.sub(r'(\d{3})(?=\d)', r'\1,', s)]: scanning from the left, three
    digits that a fourth digit follows are copied with a comma after them
    and the scan resumes at the fourth; any other character is copied. *)
Fixpoint group_digits (s : string) : string :=
  match s with
  | EmptyString => EmptyString
  | String c1 s1 =>
      match s1 with
      | String c2 (String c3 (String c4 _ as s3)) =>
          if is_digit c1 && is_digit c2 && is_digit c3 && is_digit c4
          then String c1 (String c2 (String c3 (String "," (group_digits s3))))
          else String c1 (group_digits s1)
      | _ => String c1 (group_digits s1)
      end
  end.

(** [splitThousands(someNumber)] for an integer. *)
Definition splitThousands (someNumber : Z) : string :=
  reversed (group_digits (reversed (str someNumber))).

(** ** A C library to run the model on

    The values of [acos] at the few arguments the examples reach, as the
    IEEE double nearest to the exact value (0, pi, pi/2, pi/3), [hypot] by
    the textbook formula, and [pow] at the exponent 2 (the only one the
    code uses) as the correctly rounded square, which leaves [errno]
    alone.  The theorems hold for every [Libm]. *)
Definition sample_acos (x : float) : float :=
  if (x =? 1)%float then 0%float
  else if (x =? -1)%float then pi
  else if (x =? 0)%float then (pi / 2)%float
  else if (x =? 0.5)%float then 0x1.0c152382d7366p+0%float
  else nan.

Definition sample_libm : Libm :=
  {| libm_acos := sample_acos;
     libm_hypot := fun x y => sqrt (x * x + y * y)%float;
     libm_pow := fun x _ => ((x * x)%float, ENONE) |}.

(** ** Vocabulary of the statements *)

(** Ascending by value, for the items [sorted] orders. *)
Definition by_value {K : Type} (x y : K * Z) : Prop := snd x <= snd y.

(** Ascending by angle, for flagged locations. *)
Definition by_angle (x y : SliverFinder.Sliver) : Prop :=
  SliverFinder.sliver_angle x <= SliverFinder.sliver_angle y.

Definition has_angle (a : Z) (d : SliverFinder.Sliver) : bool :=
  SliverFinder.sliver_angle d =? a.

(** A row the sliver tool counts as bad geometry: no geometry object, or
    one without parts. *)
Definition bad_geometry (row : SliverFinder.Row) : bool :=
  match snd row with
  | Some g => negb (0 <? partCount g)
  | None => true
  end.

(** The running minimum of the lengths [ds] from [seed], as the segment
    tool updates [iSeg]. *)
Definition running_min (ds : list float) (seed : float) : float :=
  fold_left (fun m d => if (d <? m)%float then d else m) ds seed.

Section Vocabulary.
Context {libm : Libm}.

(** The locations the angle loop flags at the positions [todo] of
    [pntList], in the order it visits them. *)
Definition flagged_at (pntList : list Point) (fid minAngle : Z) (iPnt : nat)
  : list SliverFinder.Sliver :=
  let theAngle := fst (SliverFinder.GetAngleFromPoints pntList iPnt) in
  if theAngle <=? minAngle then
    match SliverFinder.triple pntList iPnt with
    | inr t => [(t, fid, theAngle)]
    | inl _ => []
    end
  else [].

Definition flagged (pntList : list Point) (fid minAngle : Z) (todo : list nat)
  : list SliverFinder.Sliver :=
  flat_map (flagged_at pntList fid minAngle) todo.

(** The locations one cursor row contributes. *)
Definition flagged_in_row (minAngle : Z) (row : SliverFinder.Row)
  : list SliverFinder.Sliver :=
  match snd row with
  | Some g =>
      if 0 <? partCount g then
        match SliverFinder.walk (parts g) [] with
        | inr pntList =>
            flagged pntList (fst row) minAngle (seq 0 (List.length pntList - 2))
        | inl _ => []
        end
      else []
  | None => []
  end.

(** The angle as the specification words it: the cosine clamped into
    [[-1, 1]] instead of rounded to ten decimals. *)
Definition clamp (x lo hi : float) : float :=
  if (x <? lo)%float then lo else if (hi <? x)%float then hi else x.

Definition clamped_angle (mAB mBC mCA : float) : result Z :=
  q <- SliverFinder.cosine_ratio mAB mBC mCA ;;
  SliverFinder.angle_of_cosine (clamp q (-1) 1).

(** The vertices of a part up to its first null, and their consecutive
    pairs. *)
Fixpoint ring (part : Part) : list Point :=
  match part with
  | Some pnt :: rest => pnt :: ring rest
  | _ => []
  end.

Fixpoint pairs (l : list Point) : list (Point * Point) :=
  match l with
  | p :: (q :: _) as rest => (p, q) :: pairs rest
  | _ => []
  end.

Definition distance (pq : Point * Point) : float :=
  let (p, q) := pq in
  libm_hypot (fst p - fst q)%float (snd p - snd q)%float.

Definition midpoint (pq : Point * Point) : Point :=
  let (p, q) := pq in
  (((fst p + fst q) / 2)%float, ((snd p + snd q) / 2)%float).

(** The flag records of the consecutive pairs of [l] that are closer than
    [minDist]. *)
Definition shorts (fid : Z) (minDist : float) (l : list Point)
  : list VertexProblems.MidPnt :=
  map (fun pq => (midpoint pq, fid, distance pq))
      (filter (fun pq => (distance pq <? minDist)%float) (pairs l)).

(** The segments of a part shorter than [minDist], as flag records. *)
Definition short_segments (fid : Z) (minDist : float) (part : Part)
  : list VertexProblems.MidPnt :=
  shorts fid minDist (ring part).

(** The flags a polygon has in [dPoints]. *)
Definition flags_of (fid : Z) (st : VertexProblems.State)
  : list VertexProblems.MidPnt :=
  match dict_get fid (VertexProblems.dPoints st) with
  | Some pnts => pnts
  | None => []
  end.

(** The lengths of the segments of a part, in ring order. *)
Definition segment_lengths (part : Part) : list float :=
  map distance (pairs (ring part)).

(** The statistics row of a polygon with geometry [g] and acre value
    [acres]: the host's point count, the perimeter divided by it, the
    smallest segment length (from the seed 1000000), and 0 for a single
    part or else the part count. *)
Definition stats_of (row : VertexProblems.Row) (g : Geometry) (acres : float)
  : VertexProblems.StatsRow :=
  {| VertexProblems.POLYID := VertexProblems.fid row;
     VertexProblems.ACRES := acres;
     VertexProblems.VERTICES := pointCount g;
     VertexProblems.AVI :=
       (VertexProblems.thePerimeter row / float_of_int (pointCount g))%float;
     VertexProblems.MIN_DIST :=
       running_min (flat_map segment_lengths (parts g)) 1000000;
     VertexProblems.MULTIPART :=
       if partCount g =? 1 then 0 else partCount g |}.

(** [r] is the statistics row of the well-formed polygon [row]: it has a
    geometry, none of its parts is empty, its point count is not zero as a
    float, and [theUnits] has an acre formula. *)
Definition describes (theUnits : string) (row : VertexProblems.Row)
    (r : VertexProblems.StatsRow) : Prop :=
  exists g acres,
    VertexProblems.feat row = Some g
    /\ Forall (fun part => part <> []) (parts g)
    /\ (float_of_int (pointCount g) =? 0)%float = false
    /\ VertexProblems.acres_of theUnits (VertexProblems.theArea row) = Some acres
    /\ r = stats_of row g acres.

(** The flag records under one key belong to that polygon and are shorter
    than [minDist]. *)
Definition short_group (minDist : float) (kv : Z * list VertexProblems.MidPnt)
  : Prop :=
  Forall (fun m : VertexProblems.MidPnt =>
            snd (fst m) = fst kv /\ (snd m <? minDist)%float = true)
         (snd kv).

End Vocabulary.

(** The accumulators of the sliver tool agree: [dTest] holds the angle of
    every item of [dLines] under the same key, and the keys are distinct
    and at most [iErr]. *)
Definition consistent (st : SliverFinder.State) : Prop :=
  SliverFinder.dTest st
  = map (fun kv => (fst kv, SliverFinder.sliver_angle (snd kv)))
        (SliverFinder.dLines st)
  /\ Forall (fun k => k <= SliverFinder.iErr st) (keys (SliverFinder.dLines st))
  /\ NoDup (keys (SliverFinder.dLines st)).

(** The state a step of the reading loop leaves. *)
Definition final (s : VertexProblems.Step) : VertexProblems.State :=
  match s with
  | VertexProblems.Continue st => st
  | VertexProblems.Stop st => st
  end.

(** Two states that differ in the flags and the running minimum only. *)
Definition same_table (st st' : VertexProblems.State) : Prop :=
  VertexProblems.statsRows st' = VertexProblems.statsRows st
  /\ VertexProblems.log st' = VertexProblems.log st
  /\ VertexProblems.bHasMultiPart st' = VertexProblems.bHasMultiPart st
  /\ VertexProblems.iPnts st' = VertexProblems.iPnts st
  /\ VertexProblems.iPartCnt st' = VertexProblems.iPartCnt st.

(** Two states that differ in the host's point count [iPnts] only. *)
Definition same_walk (st st' : VertexProblems.State) : Prop :=
  VertexProblems.iCnt st' = VertexProblems.iCnt st
  /\ VertexProblems.dPoints st' = VertexProblems.dPoints st
  /\ VertexProblems.bHasMultiPart st' = VertexProblems.bHasMultiPart st
  /\ VertexProblems.iSeg st' = VertexProblems.iSeg st
  /\ VertexProblems.iPartCnt st' = VertexProblems.iPartCnt st
  /\ VertexProblems.statsRows st' = VertexProblems.statsRows st
  /\ VertexProblems.log st' = VertexProblems.log st.

(** Two states with the same findings of the vertex walk: the flag
    records and their count, the smallest segment length, and the
    multipart flag and value. *)
Definition same_findings (st st' : VertexProblems.State) : Prop :=
  VertexProblems.iCnt st' = VertexProblems.iCnt st
  /\ VertexProblems.dPoints st' = VertexProblems.dPoints st
  /\ VertexProblems.bHasMultiPart st' = VertexProblems.bHasMultiPart st
  /\ VertexProblems.iSeg st' = VertexProblems.iSeg st
  /\ VertexProblems.iPartCnt st' = VertexProblems.iPartCnt st.

(** [st'] extends [st]: rows [rs] were appended to the table and messages
    [ms] to the log, and a raised multipart flag stays raised. *)
Definition extends (st st' : VertexProblems.State)
    (rs : list VertexProblems.StatsRow) (ms : list msg) : Prop :=
  VertexProblems.statsRows st' = VertexProblems.statsRows st ++ rs
  /\ VertexProblems.log st' = VertexProblems.log st ++ ms
  /\ (VertexProblems.bHasMultiPart st = true ->
      VertexProblems.bHasMultiPart st' = true).

(** A statistics row of the polygon [row], its acre value computed in the
    units [theUnits]. *)
Definition row_of (theUnits : string) (row : VertexProblems.Row)
    (r : VertexProblems.StatsRow) : Prop :=
  VertexProblems.POLYID r = VertexProblems.fid row
  /\ VertexProblems.acres_of theUnits (VertexProblems.theArea row)
     = Some (VertexProblems.ACRES r).

(** A string without its commas. *)
Fixpoint without_commas (s : string) : string :=
  match s with
  | EmptyString => EmptyString
  | String c s' =>
      if Ascii.eqb c "," then without_commas s' else String c (without_commas s')
  end.

Fixpoint all_digits (s : string) : bool :=
  match s with
  | EmptyString => true
  | String c s' => is_digit c && all_digits s'
  end.

(** The flagged locations are numbered 1, 2, ... in both dictionaries, and
    [iErr] is their count. *)
Definition numbered (st : SliverFinder.State) : Prop :=
  keys (SliverFinder.dLines st)
  = map Z.of_nat (seq 1 (List.length (SliverFinder.dLines st)))
  /\ SliverFinder.iErr st = Z.of_nat (List.length (SliverFinder.dLines st)).

(** The part of a part in front of its first null, as a part. *)
Fixpoint before_null (part : Part) : Part :=
  match part with
  | Some pnt :: rest => Some pnt :: before_null rest
  | _ => []
  end.

(** ** Sample inputs *)

Definition square : Part :=
  map Some [(0, 0); (10, 0); (10, 10); (0, 10); (0, 0)]%float.

Definition square_geometry : Geometry :=
  {| parts := [square]; pointCount := 5 |}.

(** A geometry object without parts. *)
Definition empty_geometry : Geometry := {| parts := []; pointCount := 0 |}.

(** A square, a polygon without geometry, a polygon without parts. *)
Definition sliver_rows : list SliverFinder.Row :=
  [(7, Some square_geometry); (8, None); (9, Some empty_geometry)].

(** A square of 100 square meters, then a polygon without parts. *)
Definition segment_rows : list VertexProblems.Row :=
  [ {| VertexProblems.fid := 1; VertexProblems.feat := Some square_geometry;
       VertexProblems.theArea := 100; VertexProblems.thePerimeter := 40 |};
    {| VertexProblems.fid := 2; VertexProblems.feat := Some empty_geometry;
       VertexProblems.theArea := 0; VertexProblems.thePerimeter := 0 |} ].

(** Three vertices on one straight line, the third an eighth of a unit
    past the second: the computed cosine is [-1.000000005]. *)
Definition straight : list Point :=
  [(0, 0); (10000000, 20000000); (10000000.125, 20000000.25)]%float.

(** A right angle at [(1, 0)]. *)
Definition corner : list Point := [(0, 0); (1, 0); (1, 1)]%float.

(** The first two vertices coincide. *)
Definition doubled : list Point := [(0, 0); (0, 0); (1, 1)]%float.

(** A triangle, used as a second part. *)
Definition triangle : Part :=
  map Some [(20, 0); (30, 0); (20, 10); (20, 0)]%float.

(** The square and the triangle as the two parts of one polygon. *)
Definition two_part_geometry : Geometry :=
  {| parts := [square; triangle]; pointCount := 9 |}.

Definition two_part_row : VertexProblems.Row :=
  {| VertexProblems.fid := 5; VertexProblems.feat := Some two_part_geometry;
     VertexProblems.theArea := 150; VertexProblems.thePerimeter := 75 |}.


(** A square whose third vertex is doubled: the angle loop meets the
    angles 90, 0, 0, 90, 90 in this order. *)
Definition doubled_square : Part :=
  map Some [(0, 0); (10, 0); (10, 10); (10, 10); (0, 10); (0, 0)]%float.

Definition order_rows : list SliverFinder.Row :=
  [(4, Some {| parts := [doubled_square]; pointCount := 6 |})].

(** Two UTM references that differ in datum. *)
Definition utm_nad83 : SpatialReference :=
  {| name := "NAD_1983_UTM_Zone_15N"; datumName := "D_North_American_1983";
     type := "Projected"; linearUnitName := "Meter" |}.

Definition utm_wgs84 : SpatialReference :=
  {| name := "WGS_1984_UTM_Zone_15N"; datumName := "D_WGS_1984";
     type := "Projected"; linearUnitName := "Meter" |}.

(** Two geographic references, and the empty output reference parameter. *)
Definition gcs_nad83 : SpatialReference :=
  {| name := "GCS_North_American_1983"; datumName := "D_North_American_1983";
     type := "Geographic"; linearUnitName := "" |}.

Definition gcs_nad27 : SpatialReference :=
  {| name := "GCS_North_American_1927"; datumName := "D_North_American_1927";
     type := "Geographic"; linearUnitName := "" |}.

Definition no_reference : SpatialReference :=
  {| name := ""; datumName := ""; type := ""; linearUnitName := "" |}.

(** The configuration of the Web Mercator fallback. *)
Definition web_mercator_config : Config :=
  {| outputSR := CreateWebMercaturSR; theUnits := "meters"; unitAbbrev := "m" |}.

Definition datum_mismatch_message : msg :=
  AddMsg "Input and output datums do not match" 2.

(** The closing message of the segment tool about multipart polygons. *)
Definition multipart_message : msg :=
  AddMsg "Input layer has multipart polygons that require editing (explode)" 2.

(** A polygon with more than one part. *)
Definition is_multipart (row : VertexProblems.Row) : bool :=
  match VertexProblems.feat row with
  | Some g => 1 <? partCount g
  | None => false
  end.

(** ** The model on the sample inputs *)

Example round_half_even :
  map (fun x => round x 0) [0.5; 1.5; 2.5; 89.5; -0.4]%float
  = [0; 2; 2; 90; -0]%float.
Proof. vm_compute. reflexivity. Qed.

Example round_ten_places :
  map (fun x => round x 10)
      [1.00000000005; 0.99999999995; -1.0000000000976563; 1.0000000000000002]%float
  = [1.0000000001; 0.9999999999; -1.0000000001; 1]%float.
Proof. vm_compute. reflexivity. Qed.

Example int_truncates :
  map int [89.5; -0.4; 180; nan]%float
  = [inr 89; inr 0; inr 180; inl ValueError].
Proof. vm_compute. reflexivity. Qed.

Example normalize_units_samples :
  map normalize_units ["Meter"; "Foot_US"; "Foot"; "Kilometer"; ""]%string
  = ["meters"; "feet_us"; "feet"; "kilometers"; ""]%string.
Proof. vm_compute. reflexivity. Qed.

Example angles_of_samples :
  map (fun l => fst (SliverFinder.GetAngleFromPoints (libm := sample_libm) l 0))
      [corner; doubled; straight]
  = [90; 0; -1].
Proof. vm_compute. reflexivity. Qed.

(** The square has four right angles, the closure seam included. *)
Example square_angles :
  map snd (SliverFinder.lineRows
             (SliverFinder.ProcessLayer (libm := sample_libm)
                [(7, Some square_geometry)] 90))
  = [90; 90; 90; 90]
  /\ SliverFinder.lineRows
       (SliverFinder.ProcessLayer (libm := sample_libm)
          [(7, Some square_geometry)] 89)
     = [].
Proof. vm_compute. split; reflexivity. Qed.

(** The square of side 10: no side is shorter than 5, all four are shorter
    than 11 and are flagged at their midpoints. *)
Example square_segments :
  VertexProblems.pointRows
    (VertexProblems.ProcessLayer (libm := sample_libm) "meters"
       [ {| VertexProblems.fid := 1; VertexProblems.feat := Some square_geometry;
            VertexProblems.theArea := 100; VertexProblems.thePerimeter := 40 |} ]
       "QA" 5)
  = []
  /\ VertexProblems.pointRows
       (VertexProblems.ProcessLayer (libm := sample_libm) "meters"
          [ {| VertexProblems.fid := 1; VertexProblems.feat := Some square_geometry;
               VertexProblems.theArea := 100; VertexProblems.thePerimeter := 40 |} ]
          "QA" 11)
     = [((5, 0), 1%Z, 10); ((10, 5), 1%Z, 10);
        ((5, 10), 1%Z, 10); ((0, 5), 1%Z, 10)]%float.
Proof. vm_compute. split; reflexivity. Qed.

(** After the square, the polygon without parts stops the run of the
    segment tool on a division by its point count; the row of the square is
    in the table. *)
Example segment_rows_run :
  let out := VertexProblems.ProcessLayer (libm := sample_libm) "meters"
               segment_rows "QA" 11 in
  VertexProblems.returned out = false
  /\ map VertexProblems.POLYID (VertexProblems.statsTable out) = [1]
  /\ VertexProblems.messages out
     = [AddMsg "Bad geometry for polygon #2" 2; Traceback ZeroDivisionError].
Proof. vm_compute. repeat split; reflexivity. Qed.

(** ** The interpreter's containers *)

Section Dict.
Context {V : Type}.

Lemma dict_set_fresh (k : Z) (v : V) (d : dict V) :
  ~ In k (keys d) -> dict_set k v d = d ++ [(k, v)].
Proof.
  induction d as [|[k' v'] d IH]; simpl; intros Hk; [reflexivity|].
  destruct (Z.eqb_spec k k') as [->|Hne].
  - exfalso. apply Hk. now left.
  - f_equal. apply IH. intros Hin. apply Hk. now right.
Qed.

Lemma dict_get_set_same (k : Z) (v : V) (d : dict V) :
  dict_get k (dict_set k v d) = Some v.
Proof.
  induction d as [|[k' v'] d IH]; simpl.
  - now rewrite Z.eqb_refl.
  - destruct (Z.eqb_spec k k') as [->|Hne]; simpl.
    + now rewrite Z.eqb_refl.
    + destruct (Z.eqb_spec k k'); [contradiction|exact IH].
Qed.

Lemma dict_get_set_other (k k0 : Z) (v : V) (d : dict V) :
  k0 <> k -> dict_get k0 (dict_set k v d) = dict_get k0 d.
Proof.
  intros Hne. induction d as [|[k' v'] d IH]; simpl.
  - destruct (Z.eqb_spec k0 k); [contradiction|reflexivity].
  - destruct (Z.eqb_spec k k') as [->|Hkk']; simpl.
    + destruct (Z.eqb_spec k0 k'); [contradiction|reflexivity].
    + destruct (Z.eqb_spec k0 k'); [reflexivity|exact IH].
Qed.

Lemma dict_get_in (k : Z) (v : V) (d : dict V) :
  NoDup (keys d) -> In (k, v) d -> dict_get k d = Some v.
Proof.
  induction d as [|[k' v'] d IH]; simpl; intros Hnd Hin; [contradiction|].
  inversion Hnd as [|? ? Hnotin Hnd']; subst.
  destruct Hin as [Heq|Hin].
  - inversion Heq; subst. now rewrite Z.eqb_refl.
  - destruct (Z.eqb_spec k k') as [->|Hne].
    + exfalso. apply Hnotin. change k' with (fst (k', v)).
      now apply in_map.
    + now apply IH.
Qed.
End Dict.

Section Sorted.
Context {K : Type}.

Lemma insert_item_perm (x : K * Z) (l : list (K * Z)) :
  Permutation (insert_item x l) (x :: l).
Proof.
  induction l as [|y l IH]; simpl; [reflexivity|].
  destruct (snd x <=? snd y); [reflexivity|].
  rewrite IH. apply perm_swap.
Qed.

Lemma sorted_perm (l : list (K * Z)) : Permutation (sorted l) l.
Proof.
  induction l as [|x l IH]; simpl; [reflexivity|].
  rewrite insert_item_perm. now constructor.
Qed.

Lemma insert_item_hd (x y : K * Z) (l : list (K * Z)) :
  snd y <= snd x -> HdRel by_value y l -> HdRel by_value y (insert_item x l).
Proof.
  intros Hyx Hhd. destruct l as [|z l]; simpl.
  - now constructor.
  - destruct (snd x <=? snd z); constructor; [exact Hyx|].
    now inversion Hhd.
Qed.

Lemma insert_item_sorted (x : K * Z) (l : list (K * Z)) :
  Sorted by_value l -> Sorted by_value (insert_item x l).
Proof.
  induction l as [|y l IH]; simpl; intros Hs.
  - repeat constructor.
  - inversion Hs as [|? ? Hs' Hhd]; subst.
    destruct (Z.leb_spec (snd x) (snd y)) as [Hle|Hgt].
    + constructor; [exact Hs|]. now constructor.
    + constructor; [now apply IH|].
      apply insert_item_hd; [lia|exact Hhd].
Qed.

Lemma sorted_sorted (l : list (K * Z)) : Sorted by_value (sorted l).
Proof.
  induction l as [|x l IH]; simpl; [constructor|].
  now apply insert_item_sorted.
Qed.

(** Stability: the items of one value keep their order. *)
Lemma insert_item_stable (a : Z) (x : K * Z) (l : list (K * Z)) :
  filter (fun y => snd y =? a) (insert_item x l)
  = filter (fun y => snd y =? a) (x :: l).
Proof.
  induction l as [|y l IH]; [reflexivity|].
  cbn [insert_item].
  destruct (Z.leb_spec (snd x) (snd y)) as [Hle|Hgt]; [reflexivity|].
  cbn [filter] in *. rewrite IH.
  destruct (Z.eqb_spec (snd y) a) as [Hy|Hy];
    destruct (Z.eqb_spec (snd x) a) as [Hx|Hx]; try reflexivity.
  lia.
Qed.

Lemma sorted_stable (a : Z) (l : list (K * Z)) :
  filter (fun y => snd y =? a) (sorted l) = filter (fun y => snd y =? a) l.
Proof.
  induction l as [|x l IH]; [reflexivity|].
  cbn [sorted]. rewrite insert_item_stable. cbn [filter]. now rewrite IH.
Qed.
End Sorted.

(** ** The reading loop of the sliver tool *)

Section SliverLoop.
Context {libm : Libm}.

Import SliverFinder.

Lemma index_inr {A : Type} (l : list A) (i : nat) :
  (i < List.length l)%nat -> exists a, index l i = inr a.
Proof.
  intros Hi. unfold index.
  destruct (nth_error l i) as [a|] eqn:E; [now exists a|].
  apply nth_error_None in E. lia.
Qed.

Lemma index_inr_length {A : Type} (l : list A) (i : nat) (a : A) :
  index l i = inr a -> (i < List.length l)%nat.
Proof.
  unfold index. destruct (nth_error l i) eqn:E; [|discriminate].
  intros _. apply nth_error_Some. congruence.
Qed.

Lemma triple_inr (pntList : list Point) (iPnt : nat) :
  (iPnt + 2 < List.length pntList)%nat ->
  exists t, triple pntList iPnt = inr t.
Proof.
  intros Hi. unfold triple.
  destruct (index_inr pntList (0 + iPnt)) as [a ->]; [lia|].
  destruct (index_inr pntList (1 + iPnt)) as [b ->]; [lia|].
  destruct (index_inr pntList (2 + iPnt)) as [c ->]; [lia|].
  now exists (a, b, c).
Qed.

Lemma keys_dTest (st : State) :
  consistent st -> keys (dTest st) = keys (dLines st).
Proof.
  intros [Ht _]. rewrite Ht. unfold keys. rewrite map_map. reflexivity.
Qed.

Lemma consistent_init : consistent init.
Proof. repeat split; constructor. Qed.

Lemma consistent_say (ms : list msg) (st : State) :
  consistent st -> consistent (say ms st).
Proof. intros H. exact H. Qed.

(** Flagging under the next key appends to both dictionaries. *)
Lemma flag_bump (d : Sliver) (st : State) :
  consistent st ->
  consistent (flag d (bump st))
  /\ dLines (flag d (bump st)) = dLines st ++ [(iErr st + 1, d)].
Proof.
  intros Hc. pose proof (keys_dTest st Hc) as Hk.
  destruct Hc as (Ht & Hle & Hnd).
  assert (Hfresh : ~ In (iErr st + 1) (keys (dLines st))).
  { intros Hin. rewrite Forall_forall in Hle. apply Hle in Hin. lia. }
  assert (HL : dLines (flag d (bump st)) = dLines st ++ [(iErr st + 1, d)]).
  { cbn. now apply dict_set_fresh. }
  split; [|exact HL].
  unfold consistent. rewrite HL. cbn [dTest flag bump iErr].
  rewrite dict_set_fresh by (rewrite Hk; exact Hfresh).
  repeat split.
  - rewrite map_app, Ht. reflexivity.
  - unfold keys. rewrite map_app. apply Forall_app. split.
    + eapply Forall_impl; [|exact Hle]. cbn. intros; lia.
    + repeat constructor. cbn. lia.
  - unfold keys. rewrite map_app. cbn.
    apply NoDup_app; [exact Hnd|repeat constructor; intros []|].
    intros k Hin [<-|[]]. now apply Hfresh.
Qed.

(** The angle loop flags exactly the positions whose angle is at most
    [minAngle], in the order it visits them. *)
Lemma scan_spec (pntList : list Point) (fid minAngle : Z) (todo : list nat) :
  Forall (fun i => (i + 2 < List.length pntList)%nat) todo ->
  forall st, consistent st ->
    let st' := scan pntList fid minAngle todo st in
    consistent st'
    /\ values (dLines st') = values (dLines st) ++ flagged pntList fid minAngle todo
    /\ badPolys st' = badPolys st.
Proof.
  induction todo as [|i todo IH]; intros Hv st Hc; cbn zeta.
  - cbn. rewrite app_nil_r. auto.
  - inversion Hv as [|? ? Hi Hv']; subst.
    destruct (triple_inr pntList i Hi) as [t Ht].
    cbn [scan flagged flat_map]. unfold flagged_at. rewrite Ht.
    destruct (GetAngleFromPoints pntList i) as [theAngle ms]. cbn [fst].
    destruct (theAngle <=? minAngle).
    + destruct (flag_bump (t, fid, theAngle) (say ms st)) as [Hc' HL];
        [now apply consistent_say|].
      destruct (IH Hv' _ Hc') as (Hc2 & Hvals & Hbad).
      split; [exact Hc2|]. split.
      * rewrite Hvals, HL. unfold values. rewrite map_app, <- app_assoc.
        reflexivity.
      * rewrite Hbad. reflexivity.
    + destruct (IH Hv' (say ms st) (consistent_say ms st Hc))
        as (Hc2 & Hvals & Hbad).
      split; [exact Hc2|]. split; [exact Hvals|exact Hbad].
Qed.

Lemma seq_valid (n : nat) :
  Forall (fun i => (i + 2 < n)%nat) (seq 0 (n - 2)).
Proof.
  apply Forall_forall. intros i Hin. apply in_seq in Hin. lia.
Qed.

(** What one cursor row adds to the accumulators. *)
Lemma read_row_spec (minAngle : Z) (row : Row) (st : State) :
  consistent st ->
  let st' := read_row minAngle st row in
  consistent st'
  /\ values (dLines st') = values (dLines st) ++ flagged_in_row minAngle row
  /\ badPolys st'
     = badPolys st ++ (if bad_geometry row then [str (fst row)] else []).
Proof.
  intros Hc. destruct row as [fid feat]. unfold read_row, flagged_in_row, bad_geometry.
  cbn [fst snd]. destruct feat as [g|].
  - destruct (0 <? partCount g); cbn [negb].
    + destruct (walk (parts g) []) as [e|pntList].
      * cbn. rewrite !app_nil_r. auto.
      * destruct (scan_spec pntList fid minAngle _ (seq_valid _) st Hc)
          as (Hc' & Hvals & Hbad).
        rewrite app_nil_r. auto.
    + cbn. rewrite app_nil_r. auto.
  - cbn. rewrite app_nil_r. auto.
Qed.

Lemma fold_read_row_spec (minAngle : Z) (rows : list Row) :
  forall st, consistent st ->
    let st' := fold_left (read_row minAngle) rows st in
    consistent st'
    /\ values (dLines st')
       = values (dLines st) ++ flat_map (flagged_in_row minAngle) rows
    /\ badPolys st'
       = badPolys st ++ map (fun row => str (fst row)) (filter bad_geometry rows).
Proof.
  induction rows as [|row rows IH]; intros st Hc; cbn zeta.
  - cbn. rewrite !app_nil_r. auto.
  - destruct (read_row_spec minAngle row st Hc) as (Hc1 & Hv1 & Hb1).
    destruct (IH _ Hc1) as (Hc2 & Hv2 & Hb2).
    cbn [fold_left flat_map filter]. split; [exact Hc2|]. split.
    + rewrite Hv2, Hv1, <- app_assoc. reflexivity.
    + rewrite Hb2, Hb1, <- app_assoc. f_equal.
      destruct (bad_geometry row); reflexivity.
Qed.

(** The whole pass: the flagged locations in discovery order, and the
    identifiers of all polygons with bad geometry. *)
Lemma read_rows_spec (minAngle : Z) (rows : list Row) :
  let st := read_rows minAngle rows in
  consistent st
  /\ values (dLines st) = flat_map (flagged_in_row minAngle) rows
  /\ badPolys st = map (fun row => str (fst row)) (filter bad_geometry rows).
Proof.
  exact (fold_read_row_spec minAngle rows init consistent_init).
Qed.

End SliverLoop.

(** ** Writing the flagged locations, smallest angle first *)

Section SliverOutput.
Context {libm : Libm}.

Import SliverFinder.

Lemma filter_map_comm {A B : Type} (f : B -> bool) (g : A -> B) (l : list A) :
  filter f (map g l) = map g (filter (fun x => f (g x)) l).
Proof.
  induction l as [|x l IH]; [reflexivity|].
  cbn. destruct (f (g x)); cbn; now rewrite IH.
Qed.

(** Items of one dictionary are determined by their keys. *)
Lemma items_by_keys {V : Type} (d : dict V) :
  NoDup (keys d) ->
  forall l1 l2 : list (Z * V),
    incl l1 d -> incl l2 d -> map fst l1 = map fst l2 -> l1 = l2.
Proof.
  intros Hnd. induction l1 as [|[k v1] l1 IH]; intros [|[k' v2] l2] H1 H2 Hk;
    try discriminate; [reflexivity|].
  cbn in Hk. injection Hk as <- Hk.
  assert (Some v1 = Some v2) as Hv.
  { rewrite <- (dict_get_in k v1 d Hnd), <- (dict_get_in k v2 d Hnd).
    - reflexivity.
    - apply H2. now left.
    - apply H1. now left. }
  injection Hv as <-. f_equal.
  apply IH; [| |exact Hk]; intros x Hx; [apply H1|apply H2]; now right.
Qed.

Lemma lookup_all_items (d : dict Sliver) :
  NoDup (keys d) ->
  forall l, incl l d -> lookup_all (keys l) d = (values l, true).
Proof.
  intros Hnd. induction l as [|[k v] l IH]; intros Hin; [reflexivity|].
  cbn. rewrite (dict_get_in k v d Hnd) by (apply Hin; now left).
  unfold keys in IH. rewrite IH; [reflexivity|].
  intros x Hx. apply Hin. now right.
Qed.

Lemma sorted_values (l : list (Z * Sliver)) :
  Sorted by_value (map (fun kv => (fst kv, sliver_angle (snd kv))) l) ->
  Sorted by_angle (values l).
Proof.
  induction l as [|x l IH]; cbn; intros Hs; [constructor|].
  inversion Hs as [|? ? Hs' Hhd]; subst. constructor; [now apply IH|].
  destruct l as [|y l]; cbn in *; constructor.
  inversion Hhd; subst. assumption.
Qed.

(** The items of [dLines], taken in the order of the sorted [dTest]. *)
Lemma sorted_items (st : State) :
  consistent st ->
  exists items,
    sorted (dTest st) = map (fun kv => (fst kv, sliver_angle (snd kv))) items
    /\ Permutation (dLines st) items.
Proof.
  intros (Ht & _ & _).
  apply Permutation_map_inv. rewrite <- Ht. apply sorted_perm.
Qed.

(** What the output loop reads from the accumulators of a pass. *)
Lemma written_spec (st : State) :
  consistent st ->
  exists written,
    lookup_all (keys (sorted (dTest st))) (dLines st) = (written, true)
    /\ Permutation written (values (dLines st))
    /\ Sorted by_angle written
    /\ forall a, filter (has_angle a) written
                 = filter (has_angle a) (values (dLines st)).
Proof.
  intros Hc. destruct (sorted_items st Hc) as (items & Hs & Hp).
  destruct Hc as (Ht & _ & Hnd).
  assert (Hin : incl items (dLines st)).
  { intros x Hx. eapply Permutation_in; [symmetry; exact Hp|exact Hx]. }
  exists (values items). repeat split.
  - rewrite Hs. unfold keys at 1. rewrite map_map. cbn [fst].
    now apply lookup_all_items.
  - apply Permutation_map. now symmetry.
  - apply sorted_values. rewrite <- Hs. apply sorted_sorted.
  - intros a. unfold values. rewrite !filter_map_comm. f_equal.
    apply (items_by_keys (dLines st) Hnd).
    + intros x Hx. apply Hin. now apply filter_In in Hx.
    + intros x Hx. now apply filter_In in Hx.
    + pose proof (sorted_stable a (dTest st)) as Hst.
      rewrite Hs, Ht, !filter_map_comm in Hst.
      apply (f_equal (map fst)) in Hst. rewrite !map_map in Hst.
      exact Hst.
Qed.

End SliverOutput.

(** ** The angle evaluator *)

Section Angle.
Context {libm : Libm}.

Import SliverFinder.

(** No number is at most a NaN. *)
Lemma leb_not_nan (x y : float) : (x <=? y)%float = true -> is_nan y = false.
Proof.
  rewrite leb_spec. unfold is_nan. rewrite (FloatAxioms.eqb_spec y y).
  unfold SFleb, SFeqb.
  destruct (Prim2SF y) as [s|s| |s m e]; cbn.
  - reflexivity.
  - destruct s; reflexivity.
  - destruct (Prim2SF x); discriminate.
  - intros _. rewrite Z.compare_refl, Pos.compare_cont_refl.
    destruct s; reflexivity.
Qed.

Lemma sides_in_range (pntList : list Point) (iPnt : nat) x :
  sides pntList iPnt = inr x -> (iPnt + 2 < List.length pntList)%nat.
Proof.
  unfold sides, bind.
  destruct (side pntList (1 + iPnt) (0 + iPnt)) as [e|mAB]; [discriminate|].
  destruct (index pntList (2 + iPnt)) as [e|c] eqn:E.
  - unfold side, bind. rewrite E. discriminate.
  - intros _. apply index_inr_length in E. lia.
Qed.

Lemma GetAngle_degenerate (pntList : list Point) (iPnt : nat) (mAB mBC mCA : float) :
  sides pntList iPnt = inr (mAB, mBC, mCA) ->
  ((mAB =? 0) || (mBC =? 0))%float = true ->
  GetAngleFromPoints pntList iPnt
  = (0, [AddMsg ("Failed to calculate angle at point "
                   ++ str (Z.of_nat iPnt))%string 0]).
Proof.
  intros Hs Hz. unfold GetAngleFromPoints. rewrite Hs, Hz. reflexivity.
Qed.

Lemma GetAngle_outside (pntList : list Point) (iPnt : nat)
    (mAB mBC mCA q : float) :
  sides pntList iPnt = inr (mAB, mBC, mCA) ->
  ((mAB =? 0) || (mBC =? 0))%float = false ->
  cosine_ratio mAB mBC mCA = inr q ->
  is_nan (round q 10) = false ->
  ((-1 <=? round q 10) && (round q 10 <=? 1))%float = false ->
  GetAngleFromPoints pntList iPnt = (-1, [Traceback ValueError]).
Proof.
  intros Hs Hz Hq Hnan Hout. unfold GetAngleFromPoints.
  rewrite Hs, Hz, Hq. cbn [bind]. unfold angle_of_cosine, math_acos.
  rewrite Hnan, Hout. reflexivity.
Qed.

Lemma GetAngle_inside (pntList : list Point) (iPnt : nat)
    (mAB mBC mCA q : float) (theAngle : Z) :
  sides pntList iPnt = inr (mAB, mBC, mCA) ->
  ((mAB =? 0) || (mBC =? 0))%float = false ->
  cosine_ratio mAB mBC mCA = inr q ->
  ((-1 <=? round q 10) && (round q 10 <=? 1))%float = true ->
  int (round (math_degrees (libm_acos (round q 10))) 0) = inr theAngle ->
  GetAngleFromPoints pntList iPnt = (theAngle, []).
Proof.
  intros Hs Hz Hq Hin Hint. unfold GetAngleFromPoints.
  rewrite Hs, Hz, Hq. cbn [bind]. unfold angle_of_cosine, math_acos.
  destruct (is_nan (round q 10)) eqn:Hnan.
  - apply andb_prop in Hin as [Hlo _].
    apply leb_not_nan in Hlo. congruence.
  - rewrite Hin. cbn [bind ret]. rewrite Hint. reflexivity.
Qed.

(** Membership in the list of flagged locations, spelled out. *)
Lemma in_flagged (pntList : list Point) (fid minAngle : Z) (todo : list nat)
    (d : Sliver) :
  In d (flagged pntList fid minAngle todo) <->
  exists i t,
    In i todo /\ triple pntList i = inr t
    /\ fst (GetAngleFromPoints pntList i) <= minAngle
    /\ d = (t, fid, fst (GetAngleFromPoints pntList i)).
Proof.
  unfold flagged. rewrite in_flat_map. split.
  - intros (i & Hi & Hd). unfold flagged_at in Hd.
    destruct (Z.leb_spec (fst (GetAngleFromPoints pntList i)) minAngle);
      [|contradiction].
    destruct (triple pntList i) as [e|t] eqn:Et; [contradiction|].
    destruct Hd as [<-|[]]. now exists i, t.
  - intros (i & t & Hi & Et & Hle & ->). exists i. split; [exact Hi|].
    unfold flagged_at. rewrite Et.
    destruct (Z.leb_spec (fst (GetAngleFromPoints pntList i)) minAngle);
      [now left|lia].
Qed.

(** The locations in [dLines] after the angle loop over a whole ring. *)
Lemma in_scan (pntList : list Point) (fid minAngle : Z) (st : State)
    (d : Sliver) :
  consistent st ->
  In d (values (dLines (scan pntList fid minAngle
                             (seq 0 (List.length pntList - 2)) st)))
  <-> In d (values (dLines st))
      \/ exists i t,
           (i < List.length pntList - 2)%nat
           /\ triple pntList i = inr t
           /\ fst (GetAngleFromPoints pntList i) <= minAngle
           /\ d = (t, fid, fst (GetAngleFromPoints pntList i)).
Proof.
  intros Hc.
  destruct (scan_spec pntList fid minAngle _ (seq_valid _) st Hc)
    as (_ & -> & _).
  rewrite in_app_iff, in_flagged. split; (intros [H|H]; [now left|right]).
  - destruct H as (i & t & Hi & H). exists i, t. split; [|exact H].
    apply in_seq in Hi. lia.
  - destruct H as (i & t & Hi & H). exists i, t. split; [|exact H].
    apply in_seq. lia.
Qed.

End Angle.

(** ** The reading loop of the segment tool *)

Section SegmentLoop.
Context {libm : Libm}.

Import VertexProblems.

Lemma same_table_refl (st : State) : same_table st st.
Proof. repeat split. Qed.

Lemma same_table_trans (st1 st2 st3 : State) :
  same_table st1 st2 -> same_table st2 st3 -> same_table st1 st3.
Proof.
  unfold same_table. intros (a1 & a2 & a3 & a4 & a5) (b1 & b2 & b3 & b4 & b5).
  repeat split; congruence.
Qed.

(** One measured segment: flagged exactly when shorter than [minDist]. *)
Lemma measure_spec (fid : Z) (minDist : float) (p0 p1 : Point) (st : State) :
  let st' := measure fid minDist p0 p1 st in
  flags_of fid st'
  = flags_of fid st
    ++ (if (distance (p0, p1) <? minDist)%float
        then [(midpoint (p0, p1), fid, distance (p0, p1))] else [])
  /\ same_table st st'.
Proof.
  unfold measure, distance, midpoint. cbn zeta.
  destruct (libm_hypot (fst p0 - fst p1) (snd p0 - snd p1) <? minDist)%float.
  - split; [|repeat split]. unfold flags_of. cbn [dPoints].
    destruct (dict_get fid (dPoints st)) as [pnts|];
      rewrite dict_get_set_same; reflexivity.
  - split; [|repeat split]. unfold flags_of. cbn [dPoints].
    now rewrite app_nil_r.
Qed.

Lemma shorts_cons (fid : Z) (minDist : float) (p q : Point) (l : list Point) :
  shorts fid minDist (p :: q :: l)
  = (if (distance (p, q) <? minDist)%float
     then [(midpoint (p, q), fid, distance (p, q))] else [])
    ++ shorts fid minDist (q :: l).
Proof.
  unfold shorts. cbn [pairs filter].
  destruct (distance (p, q) <? minDist)%float; reflexivity.
Qed.

(** The walk over a part with one vertex already in hand. *)
Lemma scan_part_from (fid : Z) (minDist : float) (part : Part) :
  forall (p : Point) (st : State),
    let st' := scan_part fid minDist part [p] st in
    flags_of fid st' = flags_of fid st ++ shorts fid minDist (p :: ring part)
    /\ same_table st st'.
Proof.
  induction part as [|[q|] rest IH]; intros p st; cbn zeta.
  - cbn. rewrite app_nil_r. split; [reflexivity|apply same_table_refl].
  - cbn [scan_part app ring]. rewrite shorts_cons.
    destruct (measure_spec fid minDist p q st) as [Hm Ht].
    destruct (IH q (measure fid minDist p q st)) as [Hf Ht'].
    split.
    + rewrite Hf, Hm, <- app_assoc. reflexivity.
    + eapply same_table_trans; eassumption.
  - cbn. rewrite app_nil_r. split; [reflexivity|apply same_table_refl].
Qed.

(** A part: every pair of consecutive vertices before the first null is
    measured once, in ring order. *)
Lemma scan_part_spec (fid : Z) (minDist : float) (part : Part) (st : State) :
  let st' := scan_part fid minDist part [] st in
  flags_of fid st' = flags_of fid st ++ short_segments fid minDist part
  /\ same_table st st'.
Proof.
  destruct part as [|[p|] rest]; cbn zeta.
  - cbn. rewrite app_nil_r. split; [reflexivity|apply same_table_refl].
  - cbn [scan_part app]. apply scan_part_from.
  - cbn. rewrite app_nil_r. split; [reflexivity|apply same_table_refl].
Qed.

(** All parts of a polygon are walked. *)
Lemma scan_parts_spec (fid : Z) (minDist : float) (ps : list Part) :
  Forall (fun part => part <> []) ps ->
  forall st, exists st',
    scan_parts fid minDist ps st = inr st'
    /\ flags_of fid st'
       = flags_of fid st ++ flat_map (short_segments fid minDist) ps
    /\ same_table st st'.
Proof.
  induction 1 as [|part ps Hne _ IH]; intros st.
  - exists st. cbn. rewrite app_nil_r. repeat split.
  - destruct (scan_part_spec fid minDist part st) as [Hf Ht].
    destruct (IH (scan_part fid minDist part [] st)) as (st' & Hs & Hf' & Ht').
    exists st'. cbn [scan_parts flat_map].
    destruct part as [|x part]; [contradiction|].
    split; [exact Hs|]. split.
    + rewrite Hf', Hf, <- app_assoc. reflexivity.
    + eapply same_table_trans; eassumption.
Qed.

Lemma scan_parts_table (fid : Z) (minDist : float) (ps : list Part) :
  forall st st', scan_parts fid minDist ps st = inr st' -> same_table st st'.
Proof.
  induction ps as [|part ps IH]; intros st st' Hs.
  - cbn in Hs. injection Hs as <-. apply same_table_refl.
  - cbn [scan_parts] in Hs. destruct part as [|x part]; [discriminate|].
    eapply same_table_trans; [|apply IH; exact Hs].
    apply scan_part_spec.
Qed.

End SegmentLoop.

(** ** The statistics table and the messages only grow *)

Section SegmentTable.
Context {libm : Libm}.

Import VertexProblems.

Lemma extends_refl (st : State) : extends st st [] [].
Proof. unfold extends. rewrite !app_nil_r. auto. Qed.

Lemma extends_trans (st1 st2 st3 : State) rs1 ms1 rs2 ms2 :
  extends st1 st2 rs1 ms1 -> extends st2 st3 rs2 ms2 ->
  extends st1 st3 (rs1 ++ rs2) (ms1 ++ ms2).
Proof.
  intros (a1 & a2 & a3) (b1 & b2 & b3). unfold extends.
  rewrite b1, a1, b2, a2, <- !app_assoc. auto.
Qed.

Lemma extends_same_table (st st' : State) :
  same_table st st' -> extends st st' [] [].
Proof.
  intros (a1 & a2 & a3 & _). unfold extends.
  rewrite a1, a2, a3, !app_nil_r. auto.
Qed.

Lemma extends_say (ms : list msg) (st : State) : extends st (say ms st) [] ms.
Proof. unfold extends. cbn. rewrite app_nil_r. auto. Qed.

Lemma extends_enter (fid : Z) (g : Geometry) (st : State) :
  exists ms, extends st (enter fid g st) [] ms.
Proof.
  eexists. unfold extends. cbn. rewrite app_nil_r.
  split; [reflexivity|]. split; [reflexivity|].
  intros ->. destruct ((partCount g =? 1) || (partCount g =? 0)); reflexivity.
Qed.

Lemma write_stats_extends (theUnits : string) (row : Row) (st : State) :
  exists rs ms,
    extends st (final (write_stats theUnits row st)) rs ms
    /\ Forall (row_of theUnits row) rs.
Proof.
  unfold write_stats.
  destruct (acres_of theUnits (theArea row)) as [acres|] eqn:Ea.
  - destruct (iPnts st) as [n|], (iSeg st) as [seg|], (iPartCnt st) as [cnt|];
      try (exists [], [errorMsg NameError]; split;
           [apply extends_say|constructor]).
    destruct (float_div (thePerimeter row) (float_of_int n)) as [e|avi].
    + exists [], [errorMsg e]. split; [apply extends_say|constructor].
    + eexists [_], []. split.
      * unfold extends. cbn. rewrite app_nil_r. auto.
      * repeat constructor. exact Ea.
  - eexists [], [_]. split; [apply extends_say|constructor].
Qed.

Lemma read_row_extends (theUnits : string) (minDist : float) (st : State)
    (row : Row) :
  exists rs ms,
    extends st (final (read_row theUnits minDist st row)) rs ms
    /\ Forall (row_of theUnits row) rs.
Proof.
  unfold read_row. destruct (feat row) as [g|].
  - destruct (extends_enter (fid row) g st) as [m0 He].
    destruct (scan_parts (fid row) minDist (parts g) (enter (fid row) g st))
      as [e|st1] eqn:Es.
    + exists [], (m0 ++ [errorMsg e]). split; [|constructor].
      apply (extends_trans _ _ _ [] m0 [] [errorMsg e] He). apply extends_say.
    + apply scan_parts_table, extends_same_table in Es.
      destruct (write_stats_extends theUnits row st1) as (rs & ms & Hw & Hr).
      exists rs, (m0 ++ ms). split; [|exact Hr].
      pose proof (extends_trans _ _ _ _ _ _ _ He Es) as H01.
      cbn [app] in H01. rewrite app_nil_r in H01.
      exact (extends_trans _ _ _ [] _ _ _ H01 Hw).
  - destruct (write_stats_extends theUnits row
                (say [AddMsg ("NULL geometry for polygon #"
                                ++ str (fid row))%string 2] st))
      as (rs & ms & Hw & Hr).
    exists rs, ([AddMsg ("NULL geometry for polygon #"
                           ++ str (fid row))%string 2] ++ ms).
    split; [|exact Hr].
    exact (extends_trans _ _ _ [] _ _ _ (extends_say _ st) Hw).
Qed.

Lemma read_rows_extends (theUnits : string) (minDist : float) (rows : list Row) :
  forall st, exists rs ms,
    extends st (final (read_rows theUnits minDist rows st)) rs ms
    /\ Forall (fun r => exists row, In row rows /\ row_of theUnits row r) rs.
Proof.
  induction rows as [|row rows IH]; intros st.
  - exists [], []. split; [apply extends_refl|constructor].
  - destruct (read_row_extends theUnits minDist st row) as (r1 & m1 & H1 & F1).
    assert (F1' : Forall (fun r => exists row0, In row0 (row :: rows)
                                     /\ row_of theUnits row0 r) r1).
    { eapply Forall_impl; [|exact F1]. intros r Hr. exists row.
      split; [now left|exact Hr]. }
    cbn [read_rows].
    destruct (read_row theUnits minDist st row) as [st1|st1]; cbn [final] in H1.
    + destruct (IH st1) as (r2 & m2 & H2 & F2).
      exists (r1 ++ r2), (m1 ++ m2). split.
      * eapply extends_trans; eassumption.
      * apply Forall_app. split; [exact F1'|].
        eapply Forall_impl; [|exact F2].
        intros r (row0 & Hin & Hr). exists row0. split; [now right|exact Hr].
    + exists r1, m1. split; [exact H1|exact F1'].
Qed.

Lemma read_rows_app (theUnits : string) (minDist : float) (rows1 rows2 : list Row) :
  forall st,
    read_rows theUnits minDist (rows1 ++ rows2) st
    = match read_rows theUnits minDist rows1 st with
      | Continue st1 => read_rows theUnits minDist rows2 st1
      | Stop st1 => Stop st1
      end.
Proof.
  induction rows1 as [|row rows1 IH]; intros st; [reflexivity|].
  cbn [app read_rows].
  destruct (read_row theUnits minDist st row); [apply IH|reflexivity].
Qed.

(** The table and the log of a run are those of its reading loop, the log
    possibly with a closing message. *)
Lemma ProcessLayer_final (theUnits : string) (rows : list Row)
    (outLayer : string) (minDist : float) :
  let out := ProcessLayer theUnits rows outLayer minDist in
  let st := final (read_rows theUnits minDist rows init) in
  statsTable out = statsRows st /\ exists ms, messages out = log st ++ ms.
Proof.
  unfold ProcessLayer.
  destruct (read_rows theUnits minDist rows init) as [st|st]; cbn [final].
  - destruct rows; cbn; split; try reflexivity; eexists; reflexivity.
  - cbn. split; [reflexivity|]. exists []. now rewrite app_nil_r.
Qed.

End SegmentTable.

(** ** Polygons with bad geometry *)

Section BadGeometry.
Context {libm : Libm}.

Lemma in_log_extends (m : msg) (st st' : VertexProblems.State) rs ms :
  In m (VertexProblems.log st) -> extends st st' rs ms ->
  In m (VertexProblems.log st').
Proof.
  intros Hin (_ & Hl & _). rewrite Hl. apply in_or_app. now left.
Qed.

Lemma read_row_null (theUnits : string) (minDist : float)
    (st : VertexProblems.State) (row : VertexProblems.Row) :
  VertexProblems.feat row = None ->
  In (AddMsg ("NULL geometry for polygon #"
                ++ str (VertexProblems.fid row))%string 2)
     (VertexProblems.log (final (VertexProblems.read_row theUnits minDist st row))).
Proof.
  intros Hf. unfold VertexProblems.read_row. rewrite Hf.
  destruct (write_stats_extends theUnits row
              (VertexProblems.say
                 [AddMsg ("NULL geometry for polygon #"
                            ++ str (VertexProblems.fid row))%string 2] st))
    as (rs & ms & He & _).
  eapply in_log_extends; [|exact He].
  cbn. apply in_or_app. right. now left.
Qed.

Lemma read_row_no_parts (theUnits : string) (minDist : float)
    (st : VertexProblems.State) (row : VertexProblems.Row) (g : Geometry) :
  VertexProblems.feat row = Some g -> partCount g = 0 ->
  In (AddMsg ("Bad geometry for polygon #"
                ++ str (VertexProblems.fid row))%string 2)
     (VertexProblems.log (final (VertexProblems.read_row theUnits minDist st row))).
Proof.
  intros Hf Hn. unfold VertexProblems.read_row. rewrite Hf.
  assert (Hp : parts g = []).
  { unfold partCount in Hn. destruct (parts g); [reflexivity|discriminate]. }
  rewrite Hp. cbn [VertexProblems.scan_parts].
  destruct (write_stats_extends theUnits row
              (VertexProblems.enter (VertexProblems.fid row) g st))
    as (rs & ms & He & _).
  eapply in_log_extends; [|exact He].
  cbn. rewrite Hn. cbn. apply in_or_app. right. now left.
Qed.

(** A message of the reading loop reaches the messages of the run, and the
    rows written before a polygon is read stay in the table. *)
Lemma segment_run_keeps (theUnits : string) (minDist : float)
    (outLayer : string) (rows1 rows2 : list VertexProblems.Row)
    (row : VertexProblems.Row) (st1 : VertexProblems.State) (m : msg) :
  VertexProblems.read_rows theUnits minDist rows1 VertexProblems.init
  = VertexProblems.Continue st1 ->
  In m (VertexProblems.log
          (final (VertexProblems.read_row theUnits minDist st1 row))) ->
  let out := VertexProblems.ProcessLayer theUnits (rows1 ++ row :: rows2)
                                         outLayer minDist in
  (exists rs, VertexProblems.statsTable out = VertexProblems.statsRows st1 ++ rs)
  /\ In m (VertexProblems.messages out).
Proof.
  intros H1 Hm out.
  destruct (ProcessLayer_final theUnits (rows1 ++ row :: rows2) outLayer minDist)
    as (Ht & mo & Hmsg).
  fold out in Ht, Hmsg. rewrite Ht, Hmsg.
  rewrite read_rows_app, H1. cbn [VertexProblems.read_rows].
  destruct (read_row_extends theUnits minDist st1 row) as (r1 & m1 & He1 & _).
  destruct (VertexProblems.read_row theUnits minDist st1 row) as [st2|st2];
    cbn [final] in *.
  - destruct (read_rows_extends theUnits minDist rows2 st2)
      as (r2 & m2 & He2 & _).
    split.
    + exists (r1 ++ r2). destruct He1 as (E1 & _), He2 as (E2 & _).
      now rewrite E2, E1, <- app_assoc.
    + apply in_or_app. left. eapply in_log_extends; eassumption.
  - split.
    + exists r1. now destruct He1 as (E1 & _).
    + apply in_or_app. now left.
Qed.

(** C1, amended: in the sliver tool, a run with a polygon that has no
    geometry or no parts still reads every row (all offending identifiers
    are collected, and the other polygons are scanned), then reports
    failure and writes no row to either output layer.  The segment tool has
    no such gate: it reports the polygon by a message, and the statistics
    rows it inserted for the polygons read before stay in the table. *)
Theorem C1_bad_geometry_gate :
  (forall (rows : list SliverFinder.Row) (minAngle : Z),
      (exists row, In row rows /\ bad_geometry row = true) ->
      let st := SliverFinder.read_rows minAngle rows in
      let out := SliverFinder.ProcessLayer rows minAngle in
      SliverFinder.badPolys st
      = map (fun row => str (fst row)) (filter bad_geometry rows)
      /\ values (SliverFinder.dLines st) = flat_map (flagged_in_row minAngle) rows
      /\ SliverFinder.returned out = false
      /\ SliverFinder.lineRows out = []
      /\ SliverFinder.pointRows out = []
      /\ In (AddMsg ("Bad polygon geometry detected for the following polygons: "
                       ++ join ", " (SliverFinder.badPolys st)
                       ++ " " ++ nl ++ " ")%string 2)
            (SliverFinder.messages out))
  /\ (forall (theUnits : string) (minDist : float) (outLayer : string)
             (rows1 rows2 : list VertexProblems.Row) (row : VertexProblems.Row)
             (st1 : VertexProblems.State),
        VertexProblems.read_rows theUnits minDist rows1 VertexProblems.init
        = VertexProblems.Continue st1 ->
        let out := VertexProblems.ProcessLayer theUnits (rows1 ++ row :: rows2)
                                               outLayer minDist in
        (VertexProblems.feat row = None ->
         (exists rs, VertexProblems.statsTable out
                     = VertexProblems.statsRows st1 ++ rs)
         /\ In (AddMsg ("NULL geometry for polygon #"
                          ++ str (VertexProblems.fid row))%string 2)
               (VertexProblems.messages out))
        /\ (forall g, VertexProblems.feat row = Some g -> partCount g = 0 ->
            (exists rs, VertexProblems.statsTable out
                        = VertexProblems.statsRows st1 ++ rs)
            /\ In (AddMsg ("Bad geometry for polygon #"
                             ++ str (VertexProblems.fid row))%string 2)
                  (VertexProblems.messages out))).
Proof.
  split.
  - intros rows minAngle (row & Hin & Hbad) st out.
    destruct (read_rows_spec minAngle rows) as (_ & Hv & Hb).
    fold st in Hv, Hb.
    assert (Hne : (0 <? List.length (SliverFinder.badPolys st))%nat = true).
    { rewrite Hb, length_map. apply Nat.ltb_lt.
      assert (Hf : In row (filter bad_geometry rows))
        by (apply filter_In; auto).
      destruct (filter bad_geometry rows); [contradiction|cbn; lia]. }
    split; [exact Hb|]. split; [exact Hv|].
    unfold out, SliverFinder.ProcessLayer. fold st. rewrite Hne. cbn.
    repeat split. apply in_or_app. right. now left.
  - intros theUnits minDist outLayer rows1 rows2 row st1 H1 out. split.
    + intros Hf. apply segment_run_keeps; [exact H1|].
      now apply read_row_null.
    + intros g Hf Hn. apply segment_run_keeps; [exact H1|].
      now apply (read_row_no_parts theUnits minDist st1 row g).
Qed.

End BadGeometry.

(** The sample run of the sliver tool: polygons 8 and 9 are both collected,
    and nothing is written. *)
Lemma C1_bad_geometry_gate_witness :
  (exists row, In row sliver_rows /\ bad_geometry row = true)
  /\ SliverFinder.badPolys (SliverFinder.read_rows (libm := sample_libm) 90 sliver_rows)
     = ["8"; "9"]%string
  /\ SliverFinder.returned (SliverFinder.ProcessLayer (libm := sample_libm) sliver_rows 90)
     = false.
Proof.
  assert (H : exists row, In row sliver_rows /\ bad_geometry row = true).
  { exists (8, None). split; [right; left; reflexivity|reflexivity]. }
  split; [exact H|].
  destruct (proj1 (@C1_bad_geometry_gate sample_libm) sliver_rows 90 H)
    as (Hb & _ & Hr & _).
  split; [exact Hb|exact Hr].
Defined.

(** C1 as stated fails in the segment tool: after a square, a polygon
    without parts makes the run fail, yet the statistics row of the square
    has been written. *)
Lemma C1_counterexample :
  ~ (forall (libm : Libm) (theUnits : string) (rows : list VertexProblems.Row)
            (outLayer : string) (minDist : float),
        (exists row, In row rows
                     /\ (VertexProblems.feat row = None
                         \/ exists g, VertexProblems.feat row = Some g
                                      /\ partCount g = 0)) ->
        let out := VertexProblems.ProcessLayer theUnits rows outLayer minDist in
        VertexProblems.returned out = false
        /\ VertexProblems.statsTable out = []
        /\ VertexProblems.pointRows out = []).
Proof.
  intros H.
  specialize (H sample_libm "meters"%string segment_rows "QA"%string 11%float).
  destruct H as (_ & Ht & _).
  - eexists. split; [right; left; reflexivity|].
    right. exists empty_geometry. split; reflexivity.
  - vm_compute in Ht. discriminate Ht.
Qed.

(** ** Angles *)

Section AngleClaims.
Context {libm : Libm}.

Import SliverFinder.

(** One turn of the angle loop that flags its position. *)
Lemma scan_flags (pntList : list Point) (fid minAngle : Z) (iPnt : nat)
    (rest : list nat) (st : State) (theAngle : Z) (ms : list msg) :
  GetAngleFromPoints pntList iPnt = (theAngle, ms) ->
  theAngle <= minAngle ->
  (iPnt + 2 < List.length pntList)%nat ->
  exists t,
    triple pntList iPnt = inr t
    /\ scan pntList fid minAngle (iPnt :: rest) st
       = scan pntList fid minAngle rest
              (flag (t, fid, theAngle) (bump (say ms st))).
Proof.
  intros Hg Hle Hi. destruct (triple_inr pntList iPnt Hi) as [t Ht].
  exists t. split; [exact Ht|].
  cbn [scan]. rewrite Hg, Ht.
  destruct (Z.leb_spec theAngle minAngle); [reflexivity|lia].
Qed.

(** C2, amended: for a triple whose sides are computed and are not zero
    and whose cosine ratio is defined, when the ratio rounded to ten
    decimals lies in [[-1, 1]] the evaluator returns
    [degrees(acos(rounded ratio))] rounded to the nearest integer degree
    (and [-1] should that number not convert to an integer).  The cosine
    is rounded, never clamped. *)
Theorem C2_angle_of_rounded_cosine (pntList : list Point) (iPnt : nat)
    (mAB mBC mCA q : float) :
  sides pntList iPnt = inr (mAB, mBC, mCA) ->
  ((mAB =? 0) || (mBC =? 0))%float = false ->
  cosine_ratio mAB mBC mCA = inr q ->
  ((-1 <=? round q 10) && (round q 10 <=? 1))%float = true ->
  GetAngleFromPoints pntList iPnt
  = match int (round (math_degrees (libm_acos (round q 10))) 0) with
    | inr theAngle => (theAngle, [])
    | inl e => (-1, [errorMsg e])
    end.
Proof.
  intros Hs Hz Hq Hin. unfold GetAngleFromPoints.
  rewrite Hs, Hz, Hq. cbn [bind]. unfold angle_of_cosine, math_acos.
  assert (Hnan : is_nan (round q 10) = false).
  { apply andb_prop in Hin as [Hlo _]. now apply leb_not_nan in Hlo. }
  rewrite Hnan, Hin. cbn [bind ret]. reflexivity.
Qed.

(** C6: when the three sides are computed and [mAB] or [mBC] is zero, the
    evaluator sends its message and returns 0.  The angle loop flags a
    position exactly when the angle returned there is at most [minAngle],
    so with [0 <= minAngle] the degenerate vertex is flagged, with angle
    0. *)
Theorem C6_degenerate_vertex (pntList : list Point) (iPnt : nat)
    (mAB mBC mCA : float) :
  sides pntList iPnt = inr (mAB, mBC, mCA) ->
  ((mAB =? 0) || (mBC =? 0))%float = true ->
  GetAngleFromPoints pntList iPnt
  = (0, [AddMsg ("Failed to calculate angle at point "
                   ++ str (Z.of_nat iPnt))%string 0])
  /\ (forall (fid minAngle : Z) (st : State) (d : Sliver),
         consistent st ->
         In d (values (dLines (scan pntList fid minAngle
                                    (seq 0 (List.length pntList - 2)) st)))
         <-> In d (values (dLines st))
             \/ exists i t,
                  (i < List.length pntList - 2)%nat
                  /\ triple pntList i = inr t
                  /\ fst (GetAngleFromPoints pntList i) <= minAngle
                  /\ d = (t, fid, fst (GetAngleFromPoints pntList i)))
  /\ (forall (fid minAngle : Z) (st : State),
         consistent st -> 0 <= minAngle ->
         exists t,
           triple pntList iPnt = inr t
           /\ In (t, fid, 0)
                 (values (dLines (scan pntList fid minAngle
                                       (seq 0 (List.length pntList - 2)) st)))).
Proof.
  intros Hs Hz.
  pose proof (GetAngle_degenerate pntList iPnt mAB mBC mCA Hs Hz) as Hg.
  pose proof (sides_in_range pntList iPnt _ Hs) as Hi.
  split; [exact Hg|]. split.
  - intros fid minAngle st d Hc. now apply in_scan.
  - intros fid minAngle st Hc Hmin.
    destruct (triple_inr pntList iPnt Hi) as [t Ht]. exists t.
    split; [exact Ht|]. apply in_scan; [exact Hc|]. right.
    exists iPnt, t. rewrite Hg. cbn [fst].
    repeat split; [lia|exact Ht|exact Hmin].
Qed.

(** C10: when the three sides are computed and are not zero, and the
    cosine ratio rounded to ten decimals is a number outside [[-1, 1]],
    [math.acos] raises and the evaluator returns [-1]; with
    [0 <= minAngle] the angle loop flags the position, with angle [-1]. *)
Theorem C10_domain_error (pntList : list Point) (iPnt : nat)
    (mAB mBC mCA q : float) :
  sides pntList iPnt = inr (mAB, mBC, mCA) ->
  ((mAB =? 0) || (mBC =? 0))%float = false ->
  cosine_ratio mAB mBC mCA = inr q ->
  is_nan (round q 10) = false ->
  ((-1 <=? round q 10) && (round q 10 <=? 1))%float = false ->
  GetAngleFromPoints pntList iPnt = (-1, [Traceback ValueError])
  /\ ~ (0 <= fst (GetAngleFromPoints pntList iPnt) <= 180)
  /\ (forall (fid minAngle : Z) (st : State),
         consistent st -> 0 <= minAngle ->
         exists t,
           triple pntList iPnt = inr t
           /\ In (t, fid, -1)
                 (values (dLines (scan pntList fid minAngle
                                       (seq 0 (List.length pntList - 2)) st)))
           /\ forall rest,
                scan pntList fid minAngle (iPnt :: rest) st
                = scan pntList fid minAngle rest
                       (flag (t, fid, -1) (bump (say [Traceback ValueError] st)))).
Proof.
  intros Hs Hz Hq Hnan Hout.
  pose proof (GetAngle_outside pntList iPnt mAB mBC mCA q Hs Hz Hq Hnan Hout)
    as Hg.
  pose proof (sides_in_range pntList iPnt _ Hs) as Hi.
  split; [exact Hg|]. split; [rewrite Hg; cbn; lia|].
  intros fid minAngle st Hc Hmin.
  destruct (triple_inr pntList iPnt Hi) as [t Ht]. exists t.
  split; [exact Ht|]. split.
  - apply in_scan; [exact Hc|]. right.
    exists iPnt, t. rewrite Hg. cbn [fst].
    repeat split; [lia|exact Ht|lia].
  - intros rest.
    destruct (scan_flags pntList fid minAngle iPnt rest st _ _ Hg) as (t' & Ht' & Hscan);
      [lia|exact Hi|].
    rewrite Ht in Ht'. injection Ht' as <-. exact Hscan.
Qed.

End AngleClaims.

(** The right angle of [corner] is evaluated to 90 degrees. *)
Lemma C2_angle_of_rounded_cosine_witness :
  SliverFinder.GetAngleFromPoints (libm := sample_libm) corner 0 = (90, []).
Proof.
  rewrite (@C2_angle_of_rounded_cosine sample_libm corner 0%nat
             1%float 1%float (sqrt 2)%float
             ((1 * 1 + 1 * 1 - sqrt 2 * sqrt 2) / (2 * 1 * 1))%float).
  - vm_compute. reflexivity.
  - vm_compute. reflexivity.
  - vm_compute. reflexivity.
  - vm_compute. reflexivity.
  - vm_compute. reflexivity.
Defined.

(** C2 as stated fails on [straight]: the sides are not zero, the clamped
    formula gives 180 degrees, the evaluator returns [-1]. *)
Lemma C2_counterexample :
  ~ (forall (libm : Libm) (pntList : list Point) (iPnt : nat)
            (mAB mBC mCA : float),
        SliverFinder.sides pntList iPnt = inr (mAB, mBC, mCA) ->
        ((mAB =? 0) || (mBC =? 0))%float = false ->
        exists theAngle,
          clamped_angle mAB mBC mCA = inr theAngle
          /\ fst (SliverFinder.GetAngleFromPoints pntList iPnt) = theAngle).
Proof.
  intros H.
  destruct (H sample_libm straight 0%nat
              22360679.774997897%float 0.27950849718747373%float
              22360680.054506395%float)
    as (theAngle & Hc & Hg).
  - vm_compute. reflexivity.
  - vm_compute. reflexivity.
  - vm_compute in Hc. vm_compute in Hg. congruence.
Qed.

(** The doubled vertex of [doubled] is evaluated to 0 and flagged. *)
Lemma C6_degenerate_vertex_witness :
  SliverFinder.GetAngleFromPoints (libm := sample_libm) doubled 0
  = (0, [AddMsg "Failed to calculate angle at point 0" 0]).
Proof.
  refine (proj1 (@C6_degenerate_vertex sample_libm doubled 0%nat
                   0%float (sqrt 2)%float (sqrt 2)%float _ _)).
  - vm_compute. reflexivity.
  - vm_compute. reflexivity.
Defined.

(** On [straight] the rounded cosine is below [-1]: the evaluator returns
    [-1]. *)
Lemma C10_domain_error_witness :
  SliverFinder.GetAngleFromPoints (libm := sample_libm) straight 0
  = (-1, [Traceback ValueError]).
Proof.
  refine (proj1 (@C10_domain_error sample_libm straight 0%nat
                   22360679.774997897%float 0.27950849718747373%float
                   22360680.054506395%float (-1.000000005)%float _ _ _ _ _)).
  - vm_compute. reflexivity.
  - vm_compute. reflexivity.
  - vm_compute. reflexivity.
  - vm_compute. reflexivity.
  - vm_compute. reflexivity.
Defined.

(** ** Multipart polygons and short rings *)

Section Parts.
Context {libm : Libm}.

Lemma walk_last (ps : list Part) (part : Part) :
  forall pntList l,
    SliverFinder.walk (ps ++ [part]) pntList = inr l ->
    SliverFinder.walk [part] [] = inr l.
Proof.
  induction ps as [|p ps IH]; intros pntList l Hw.
  - exact Hw.
  - cbn [app SliverFinder.walk] in Hw. unfold bind in Hw.
    destruct (index (SliverFinder.collect p []) 1) as [e|v1]; [discriminate|].
    exact (IH _ _ Hw).
Qed.

Lemma write_stats_flags (theUnits : string) (row : VertexProblems.Row)
    (st : VertexProblems.State) :
  let st' := final (VertexProblems.write_stats theUnits row st) in
  VertexProblems.dPoints st' = VertexProblems.dPoints st
  /\ VertexProblems.bHasMultiPart st' = VertexProblems.bHasMultiPart st
  /\ VertexProblems.iPartCnt st' = VertexProblems.iPartCnt st.
Proof.
  unfold VertexProblems.write_stats, VertexProblems.failed.
  destruct (VertexProblems.acres_of theUnits (VertexProblems.theArea row));
    [|cbn; auto].
  destruct (VertexProblems.iPnts st), (VertexProblems.iSeg st),
    (VertexProblems.iPartCnt st) eqn:E; cbn; auto.
  destruct (float_div _ _); cbn; auto.
Qed.

Lemma write_stats_row (theUnits : string) (row : VertexProblems.Row)
    (st st' : VertexProblems.State) :
  VertexProblems.write_stats theUnits row st = VertexProblems.Continue st' ->
  exists r,
    VertexProblems.statsRows st' = VertexProblems.statsRows st ++ [r]
    /\ VertexProblems.POLYID r = VertexProblems.fid row
    /\ VertexProblems.iSeg st = Some (VertexProblems.MIN_DIST r)
    /\ VertexProblems.iPartCnt st = Some (VertexProblems.MULTIPART r).
Proof.
  unfold VertexProblems.write_stats, VertexProblems.failed.
  destruct (VertexProblems.acres_of theUnits (VertexProblems.theArea row));
    [|discriminate].
  destruct (VertexProblems.iPnts st), (VertexProblems.iSeg st),
    (VertexProblems.iPartCnt st); try discriminate.
  destruct (float_div _ _); [discriminate|].
  intros H. injection H as <-. eexists. cbn. repeat split; reflexivity.
Qed.

Lemma write_stats_stop (theUnits : string) (row : VertexProblems.Row)
    (st st' : VertexProblems.State) :
  VertexProblems.write_stats theUnits row st = VertexProblems.Stop st' ->
  VertexProblems.statsRows st' = VertexProblems.statsRows st.
Proof.
  unfold VertexProblems.write_stats, VertexProblems.failed.
  destruct (VertexProblems.acres_of theUnits (VertexProblems.theArea row)).
  - destruct (VertexProblems.iPnts st), (VertexProblems.iSeg st),
      (VertexProblems.iPartCnt st);
      try (intros H; injection H as <-; reflexivity).
    destruct (float_div _ _); [|discriminate].
    intros H; injection H as <-; reflexivity.
  - intros H; injection H as <-; reflexivity.
Qed.

(** The running minimum stays bound once it is. *)
Lemma measure_bound (fid : Z) (minDist : float) (p0 p1 : Point)
    (st : VertexProblems.State) :
  VertexProblems.iSeg st <> None ->
  VertexProblems.iSeg (VertexProblems.measure fid minDist p0 p1 st) <> None.
Proof.
  unfold VertexProblems.measure. intros Hs.
  destruct (VertexProblems.iSeg st) as [seg|]; [|contradiction].
  destruct (_ <? minDist)%float; cbn [VertexProblems.iSeg];
    destruct (_ <? seg)%float; discriminate.
Qed.

Lemma scan_part_bound (fid : Z) (minDist : float) (part : Part) :
  forall pntList st,
    VertexProblems.iSeg st <> None ->
    VertexProblems.iSeg (VertexProblems.scan_part fid minDist part pntList st)
    <> None.
Proof.
  induction part as [|[p|] part IH]; intros pntList st Hs;
    cbn [VertexProblems.scan_part]; [exact Hs| |exact Hs].
  destruct (pntList ++ [p]) as [|x [|y [|z w]]]; apply IH; try exact Hs.
  now apply measure_bound.
Qed.

Lemma scan_parts_bound (fid : Z) (minDist : float) (ps : list Part) :
  forall st st',
    VertexProblems.scan_parts fid minDist ps st = inr st' ->
    VertexProblems.iSeg st <> None -> VertexProblems.iSeg st' <> None.
Proof.
  induction ps as [|part ps IH]; intros st st' Hs Hb.
  - cbn in Hs. injection Hs as <-. exact Hb.
  - cbn [VertexProblems.scan_parts] in Hs.
    destruct part as [|x part]; [discriminate|].
    apply (IH _ _ Hs). now apply scan_part_bound.
Qed.

(** C3, amended.  For a polygon with more than one part the segment tool
    raises its multipart flag and records the part count, whatever happens
    later in the polygon; the statistics row it writes for the polygon has
    the part count as MULTIPART, and no row is added when the run stops at
    the polygon; when no part is empty the segments of every part are
    measured, so the flag records of the polygon are those it had followed
    by the short segments of its parts in part order, and the row is
    written when the unit has an acre formula and the point count is not
    zero. *)
Theorem C3_multipart (theUnits : string) (minDist : float)
    (st : VertexProblems.State) (row : VertexProblems.Row) (g : Geometry) :
  VertexProblems.feat row = Some g ->
  1 < partCount g ->
  let s := VertexProblems.read_row theUnits minDist st row in
  VertexProblems.bHasMultiPart (final s) = true
  /\ VertexProblems.iPartCnt (final s) = Some (partCount g)
  /\ (forall st', s = VertexProblems.Continue st' ->
       exists r,
         VertexProblems.statsRows st' = VertexProblems.statsRows st ++ [r]
         /\ VertexProblems.POLYID r = VertexProblems.fid row
         /\ VertexProblems.MULTIPART r = partCount g)
  /\ (forall st', s = VertexProblems.Stop st' ->
       VertexProblems.statsRows st' = VertexProblems.statsRows st)
  /\ (Forall (fun part => part <> []) (parts g) ->
      flags_of (VertexProblems.fid row) (final s)
      = flags_of (VertexProblems.fid row) st
        ++ flat_map (short_segments (VertexProblems.fid row) minDist) (parts g)
      /\ (forall acres,
            VertexProblems.acres_of theUnits (VertexProblems.theArea row)
            = Some acres ->
            (float_of_int (pointCount g) =? 0)%float = false ->
            exists st', s = VertexProblems.Continue st')).
Proof.
  intros Hf Hn s.
  assert (H1 : (partCount g =? 1) = false) by (apply Z.eqb_neq; lia).
  assert (H0 : (partCount g =? 0) = false) by (apply Z.eqb_neq; lia).
  pose (st0 := VertexProblems.enter (VertexProblems.fid row) g st).
  assert (Hm0 : VertexProblems.bHasMultiPart st0 = true)
    by (cbn; now rewrite H1, H0).
  assert (Hc0 : VertexProblems.iPartCnt st0 = Some (partCount g))
    by (cbn; now rewrite H1).
  unfold s, VertexProblems.read_row. rewrite Hf. fold st0.
  destruct (VertexProblems.scan_parts (VertexProblems.fid row) minDist
              (parts g) st0) as [e|st1] eqn:Es.
  - unfold VertexProblems.failed. cbn [final].
    split; [exact Hm0|]. split; [exact Hc0|].
    split; [discriminate|].
    split; [intros st' H; injection H as <-; reflexivity|].
    intros Hne.
    destruct (scan_parts_spec (VertexProblems.fid row) minDist (parts g) Hne st0)
      as (st1 & Hs & _).
    rewrite Hs in Es. discriminate Es.
  - destruct (scan_parts_table _ _ _ _ _ Es) as (Hrows & _ & Hm & Hp & Hc).
    destruct (write_stats_flags theUnits row st1) as (Hd & Hm' & Hc').
    cbn zeta in Hd, Hm', Hc'.
    split; [rewrite Hm', Hm; exact Hm0|].
    split; [rewrite Hc', Hc; exact Hc0|].
    split; [|split].
    + intros st' Hs.
      destruct (write_stats_row _ _ _ _ Hs) as (r & Hr & Hid & _ & Hcnt).
      exists r. rewrite Hr, Hrows. split; [reflexivity|]. split; [exact Hid|].
      rewrite Hc, Hc0 in Hcnt. congruence.
    + intros st' Hs. rewrite (write_stats_stop _ _ _ _ Hs), Hrows. reflexivity.
    + intros Hne. split.
      * destruct (scan_parts_spec (VertexProblems.fid row) minDist (parts g)
                    Hne st0) as (st1' & Hs & Hflags & _).
        rewrite Hs in Es. injection Es as ->.
        unfold flags_of in *. rewrite Hd. exact Hflags.
      * intros acres Ha Hz.
        assert (Hb : VertexProblems.iSeg st1 <> None)
          by (apply (scan_parts_bound _ _ _ _ _ Es); discriminate).
        unfold VertexProblems.write_stats. rewrite Ha, Hp, Hc.
        cbn [st0 VertexProblems.enter VertexProblems.iPnts
               VertexProblems.iPartCnt].
        destruct (VertexProblems.iSeg st1) as [seg|]; [|contradiction].
        unfold float_div. rewrite Hz. eexists. reflexivity.
Qed.


End Parts.

(** The square and the triangle in one polygon, in meters with the
    threshold 11: the flag is raised, 2 goes into MULTIPART, and the two
    short sides of the triangle are flagged after the four of the square. *)
Lemma C3_multipart_witness :
  let s := VertexProblems.read_row (libm := sample_libm) "meters" 11
             VertexProblems.init two_part_row in
  VertexProblems.bHasMultiPart (final s) = true
  /\ VertexProblems.iPartCnt (final s) = Some 2
  /\ map VertexProblems.MULTIPART (VertexProblems.statsRows (final s)) = [2]
  /\ flags_of 5 (final s)
     = flat_map (short_segments (libm := sample_libm) 5 11) [square; triangle].
Proof.
  intros s.
  destruct (@C3_multipart sample_libm "meters" 11%float VertexProblems.init
              two_part_row two_part_geometry eq_refl eq_refl)
    as (Hm & Hc & _ & _ & Hall).
  split; [exact Hm|]. split; [exact Hc|]. split; [vm_compute; reflexivity|].
  destruct Hall as [Hflags _].
  - repeat constructor; discriminate.
  - exact Hflags.
Defined.

(** C3 as stated fails.  In the segment tool the parts after the first
    are scanned too: the triangle, second part after the square, has two
    sides shorter than 11 that are flagged.  In the sliver tool the vertex
    list that reaches the angle loop is not the one of the first part. *)
Lemma C3_counterexample :
  ~ (forall (libm : Libm) (theUnits : string) (minDist : float)
            (st : VertexProblems.State) (row : VertexProblems.Row)
            (g : Geometry) (first : Part) (rest : list Part),
        VertexProblems.feat row = Some g ->
        parts g = first :: rest ->
        rest <> [] ->
        flags_of (VertexProblems.fid row)
                 (final (VertexProblems.read_row theUnits minDist st row))
        = flags_of (VertexProblems.fid row) st
          ++ short_segments (VertexProblems.fid row) minDist first)
  /\ ~ (forall (first : Part) (rest : list Part),
           rest <> [] ->
           SliverFinder.walk (first :: rest) [] = SliverFinder.walk [first] []).
Proof.
  split.
  - intros H.
    specialize (H sample_libm "meters"%string 11%float VertexProblems.init
                  two_part_row two_part_geometry square [triangle]
                  eq_refl eq_refl).
    assert (Hne : [triangle] <> []) by discriminate.
    apply H in Hne. apply (f_equal (@List.length _)) in Hne.
    vm_compute in Hne. discriminate Hne.
  - intros H. specialize (H square [triangle]).
    assert (Hne : [triangle] <> []) by discriminate.
    apply H in Hne. vm_compute in Hne. discriminate Hne.
Qed.



(** ** Output order *)

Section Order.
Context {libm : Libm}.

(** C4: when no polygon has bad geometry, both output layers are written
    from one list of the flagged locations that holds every discovered
    location once, ascends by angle, and keeps the discovery order among
    locations of equal angle.  Discovered with the angles 30, 10, 45, 10
    under the keys 1 to 4, the locations are written in the key order
    2, 4, 1, 3. *)
Theorem C4_smallest_angle_first (rows : list SliverFinder.Row) (minAngle : Z) :
  filter bad_geometry rows = [] ->
  let out := SliverFinder.ProcessLayer rows minAngle in
  let discovered := flat_map (flagged_in_row minAngle) rows in
  (exists written,
      SliverFinder.lineRows out = map SliverFinder.line_row written
      /\ SliverFinder.pointRows out = map SliverFinder.point_row written
      /\ Permutation written discovered
      /\ Sorted by_angle written
      /\ forall a, filter (has_angle a) written = filter (has_angle a) discovered)
  /\ keys (sorted [(1, 30); (2, 10); (3, 45); (4, 10)]) = [2; 4; 1; 3].
Proof.
  intros Hgood out discovered. split; [|reflexivity].
  destruct (read_rows_spec minAngle rows) as (Hc & Hv & Hb).
  cbn zeta in Hc, Hv, Hb. rewrite Hgood in Hb. cbn [map] in Hb.
  destruct (written_spec _ Hc) as (written & Hl & Hp & Hs & Hst).
  rewrite Hv in Hp, Hst. fold discovered in Hp, Hst.
  exists written. unfold out, SliverFinder.ProcessLayer.
  rewrite Hb. change (0 <? List.length (@nil string))%nat with false.
  cbv iota.
  destruct (0 <? List.length
                   (SliverFinder.dLines (SliverFinder.read_rows minAngle rows)))%nat
    eqn:Hlen.
  - rewrite Hl. cbn.
    split; [reflexivity|]. split; [reflexivity|].
    split; [exact Hp|]. split; [exact Hs|exact Hst].
  - assert (Hnil : discovered = []).
    { unfold discovered. rewrite <- Hv. unfold values.
      apply Nat.ltb_ge in Hlen.
      destruct (SliverFinder.dLines (SliverFinder.read_rows minAngle rows));
        [reflexivity|cbn in Hlen; lia]. }
    rewrite Hnil in Hp. apply Permutation_sym, Permutation_nil in Hp.
    subst written.
    cbn. rewrite Hnil. repeat split; constructor.
Qed.

End Order.

(** The doubled square: discovered as 90, 0, 0, 90, 90, written as
    0, 0, 90, 90, 90. *)
Lemma C4_smallest_angle_first_witness :
  filter bad_geometry order_rows = []
  /\ map SliverFinder.sliver_angle
         (flat_map (flagged_in_row (libm := sample_libm) 90) order_rows)
     = [90; 0; 0; 90; 90]
  /\ map snd (SliverFinder.lineRows
                (SliverFinder.ProcessLayer (libm := sample_libm) order_rows 90))
     = [0; 0; 90; 90; 90]
  /\ exists written,
       SliverFinder.lineRows
         (SliverFinder.ProcessLayer (libm := sample_libm) order_rows 90)
       = map SliverFinder.line_row written
       /\ Sorted by_angle written.
Proof.
  split; [reflexivity|].
  split; [vm_compute; reflexivity|].
  split; [vm_compute; reflexivity|].
  destruct (proj1 (@C4_smallest_angle_first sample_libm order_rows 90 eq_refl))
    as (written & Hl & _ & _ & Hs & _).
  exists written. split; [exact Hl|exact Hs].
Defined.

(** ** Datum test *)

(** C5 on the code: when the requested output reference has another datum
    than the input, the segment tool reports it and exits without calling
    [ProcessLayer]; the sliver tool reports it too, and then calls
    [ProcessLayer] all the same. *)
Theorem C5_datum_mismatch (inputSR requested : SpatialReference) :
  name requested <> ""%string ->
  datumName inputSR <> datumName requested ->
  (In (AddMsg "Input and output datums do not match" 2)
      (setup_log (VertexProblems.main inputSR requested))
   /\ setup_call (VertexProblems.main inputSR requested) = None)
  /\ In (AddMsg "Input and output datums do not match" 2)
        (setup_log (SliverFinder.main inputSR requested))
  /\ exists cfg, setup_call (SliverFinder.main inputSR requested) = Some cfg.
Proof.
  intros Hname Hdatum.
  apply String.eqb_neq in Hname. apply String.eqb_neq in Hdatum.
  unfold VertexProblems.main, SliverFinder.main, chosen_reference.
  rewrite Hname, Hdatum. cbn [negb].
  split; [split; [now left|reflexivity]|].
  destruct (negb (String.eqb (upper (type requested)) "PROJECTED"));
    [destruct (String.eqb (datumName inputSR) "D_North_American_1983"
               || String.eqb (datumName inputSR) "D_WGS_1984")|];
    cbn; (split; [now left|eexists; reflexivity]).
Qed.

(** A layer in NAD 1983 UTM with a WGS 1984 UTM output reference: the
    sliver tool goes on to [ProcessLayer] in the requested reference. *)
Lemma C5_datum_mismatch_witness :
  setup_call (VertexProblems.main utm_nad83 utm_wgs84) = None
  /\ exists cfg, setup_call (SliverFinder.main utm_nad83 utm_wgs84) = Some cfg.
Proof.
  assert (Hn : name utm_wgs84 <> ""%string) by discriminate.
  assert (Hd : datumName utm_nad83 <> datumName utm_wgs84) by discriminate.
  destruct (C5_datum_mismatch utm_nad83 utm_wgs84 Hn Hd) as ((_ & Hv) & _ & Hs).
  split; [exact Hv|exact Hs].
Defined.

(** ** Short segments and acres *)

Section Segments.
Context {libm : Libm}.

(** C7: walking a part, the segment tool adds to the flags of the polygon
    one record for every pair of consecutive vertices (before the first
    null) whose distance is below [minDist], in ring order, and no other;
    the point of the record is the mean of the two endpoints, its length
    the distance. *)
Theorem C7_short_segments (fid : Z) (minDist : float) (part : Part)
    (st : VertexProblems.State) :
  flags_of fid (VertexProblems.scan_part fid minDist part [] st)
  = flags_of fid st ++ short_segments fid minDist part
  /\ forall d : VertexProblems.MidPnt,
       In d (short_segments fid minDist part)
       <-> exists x1 y1 x2 y2 : float,
             In ((x1, y1), (x2, y2)) (pairs (ring part))
             /\ (libm_hypot (x1 - x2) (y1 - y2) <? minDist)%float = true
             /\ d = ((((x1 + x2) / 2)%float, ((y1 + y2) / 2)%float), fid,
                     libm_hypot (x1 - x2) (y1 - y2)%float).
Proof.
  split; [apply scan_part_spec|].
  intros d. unfold short_segments, shorts. rewrite in_map_iff. split.
  - intros ([[x1 y1] [x2 y2]] & <- & Hin). apply filter_In in Hin as [Hin Hlt].
    exists x1, y1, x2, y2. repeat split; assumption.
  - intros (x1 & y1 & x2 & y2 & Hin & Hlt & ->).
    exists ((x1, y1), (x2, y2)). split; [reflexivity|].
    apply filter_In. split; assumption.
Qed.

Lemma acres_of_other (theUnits : string) (theArea : float) :
  theUnits <> "meters"%string -> theUnits <> "feet_us"%string ->
  VertexProblems.acres_of theUnits theArea = None.
Proof.
  intros Hm Hf. unfold VertexProblems.acres_of.
  apply String.eqb_neq in Hm. apply String.eqb_neq in Hf.
  now rewrite Hm, Hf.
Qed.

(** With a unit that has no acre formula the first row ends the run, and
    the table stays as it was. *)
Lemma read_row_other (theUnits : string) (minDist : float)
    (st : VertexProblems.State) (row : VertexProblems.Row) :
  theUnits <> "meters"%string -> theUnits <> "feet_us"%string ->
  exists st',
    VertexProblems.read_row theUnits minDist st row = VertexProblems.Stop st'
    /\ VertexProblems.statsRows st' = VertexProblems.statsRows st.
Proof.
  intros Hm Hf. unfold VertexProblems.read_row, VertexProblems.write_stats.
  rewrite (acres_of_other theUnits _ Hm Hf).
  destruct (VertexProblems.feat row) as [g|].
  - destruct (VertexProblems.scan_parts (VertexProblems.fid row) minDist
                (parts g) (VertexProblems.enter (VertexProblems.fid row) g st))
      as [e|st1] eqn:Es.
    + eexists. split; reflexivity.
    + apply scan_parts_table in Es. destruct Es as (Hr & _).
      eexists. split; [reflexivity|]. cbn. exact Hr.
  - eexists. split; reflexivity.
Qed.

Lemma acres_in_table (theUnits : string) (rows : list VertexProblems.Row)
    (outLayer : string) (minDist : float) :
  Forall (fun r => exists row, In row rows /\ row_of theUnits row r)
         (VertexProblems.statsTable
            (VertexProblems.ProcessLayer theUnits rows outLayer minDist)).
Proof.
  destruct (ProcessLayer_final theUnits rows outLayer minDist) as (-> & _).
  destruct (read_rows_extends theUnits minDist rows VertexProblems.init)
    as (rs & ms & (-> & _) & Hf).
  exact Hf.
Qed.

(** C8, amended: every row of the statistics table holds the area of its
    polygon divided by 4046.85643 when [theUnits] is ["meters"] and by
    43560.0 when it is ["feet_us"]; with any other unit name, ["feet"]
    among them, the run returns [False] with an empty table and no flag
    points.  The main program lower-cases the unit name of the output
    reference, replaces [foot] by [feet] and [meter] by [meters], and
    hands the result to [ProcessLayer] whatever it is: [Meter] becomes
    [meters], [Foot_US] becomes [feet_us], [Foot] becomes [feet]. *)
Theorem C8_acres_by_unit :
  (forall (rows : list VertexProblems.Row) (outLayer : string) (minDist : float),
      Forall (fun r => exists row,
                  In row rows
                  /\ VertexProblems.POLYID r = VertexProblems.fid row
                  /\ VertexProblems.ACRES r
                     = (VertexProblems.theArea row / 4046.85643)%float)
             (VertexProblems.statsTable
                (VertexProblems.ProcessLayer "meters" rows outLayer minDist)))
  /\ (forall (rows : list VertexProblems.Row) (outLayer : string) (minDist : float),
         Forall (fun r => exists row,
                     In row rows
                     /\ VertexProblems.POLYID r = VertexProblems.fid row
                     /\ VertexProblems.ACRES r
                        = (VertexProblems.theArea row / 43560.0)%float)
                (VertexProblems.statsTable
                   (VertexProblems.ProcessLayer "feet_us" rows outLayer minDist)))
  /\ (forall (theUnits : string) (rows : list VertexProblems.Row)
             (outLayer : string) (minDist : float),
         theUnits <> "meters"%string -> theUnits <> "feet_us"%string ->
         let out := VertexProblems.ProcessLayer theUnits rows outLayer minDist in
         VertexProblems.returned out = false
         /\ VertexProblems.statsTable out = []
         /\ VertexProblems.pointRows out = [])
  /\ normalize_units "Meter" = "meters"%string
  /\ normalize_units "Foot_US" = "feet_us"%string
  /\ normalize_units "Foot" = "feet"%string
  /\ (forall (inputSR requested : SpatialReference) (cfg : Config),
         setup_call (VertexProblems.main inputSR requested) = Some cfg ->
         theUnits cfg = normalize_units (linearUnitName (outputSR cfg))).
Proof.
  split; [|split; [|split; [|split; [|split; [|split]]]]].
  - intros rows outLayer minDist.
    eapply Forall_impl; [|apply acres_in_table].
    intros r (row & Hin & Hid & Ha). exists row.
    split; [exact Hin|]. split; [exact Hid|].
    cbn in Ha. now injection Ha as <-.
  - intros rows outLayer minDist.
    eapply Forall_impl; [|apply acres_in_table].
    intros r (row & Hin & Hid & Ha). exists row.
    split; [exact Hin|]. split; [exact Hid|].
    cbn in Ha. now injection Ha as <-.
  - intros theUnits rows outLayer minDist Hm Hf out.
    unfold out, VertexProblems.ProcessLayer.
    destruct rows as [|row rows]; [cbn; auto|].
    cbn [VertexProblems.read_rows].
    destruct (read_row_other theUnits minDist VertexProblems.init row Hm Hf)
      as (st' & -> & Hr).
    cbn. rewrite Hr. auto.
  - reflexivity.
  - reflexivity.
  - reflexivity.
  - intros inputSR requested cfg. unfold VertexProblems.main.
    destruct (chosen_reference inputSR requested) as [sr outputDatum].
    destruct (negb (String.eqb (datumName inputSR) outputDatum));
      [discriminate|].
    destruct (negb (String.eqb (upper (type sr)) "PROJECTED"));
      [destruct (String.eqb (datumName inputSR) "D_North_American_1983"
                 || String.eqb (datumName inputSR) "D_WGS_1984")|];
      cbn; intros H; injection H as <-; reflexivity.
Qed.

End Segments.

(** A run in feet: the table is empty and the run fails. *)
Lemma C8_acres_by_unit_witness :
  "feet"%string <> "meters"%string
  /\ "feet"%string <> "feet_us"%string
  /\ VertexProblems.returned
       (VertexProblems.ProcessLayer (libm := sample_libm) "feet" segment_rows
                                    "QA" 11)
     = false.
Proof.
  assert (Hm : "feet"%string <> "meters"%string) by discriminate.
  assert (Hf : "feet"%string <> "feet_us"%string) by discriminate.
  split; [exact Hm|]. split; [exact Hf|].
  exact (proj1 (proj1 (proj2 (proj2 (@C8_acres_by_unit sample_libm)))
                  "feet"%string segment_rows "QA"%string 11%float Hm Hf)).
Defined.

(** C8 as stated fails for feet: the unit name [Foot] is normalized to
    [feet], for which no acre value is computed; and [Foot_US] is
    normalized to [feet_us], which is neither [meters] nor [feet]. *)
Lemma C8_counterexample :
  normalize_units "Foot" = "feet"%string
  /\ VertexProblems.acres_of "feet" 43560 = None
  /\ VertexProblems.returned
       (VertexProblems.ProcessLayer (libm := sample_libm)
          (normalize_units "Foot") segment_rows "QA" 11) = false
  /\ normalize_units "Foot_US" = "feet_us"%string
  /\ ~ In (normalize_units "Foot_US") ["meters"; "feet"]%string.
Proof.
  split; [reflexivity|]. split; [reflexivity|].
  split; [vm_compute; reflexivity|]. split; [reflexivity|].
  cbn. intros [H|[H|[]]]; discriminate H.
Qed.

(** ** Number formatting *)

Section Formatting.

Lemma append_empty_r (s : string) : (s ++ "")%string = s.
Proof. induction s as [|c s IH]; cbn; [reflexivity|now rewrite IH]. Qed.

Lemma rev_string_twice (s : string) :
  forall a b, rev_string (rev_string s a) b = rev_string a (s ++ b)%string.
Proof.
  induction s as [|c s IH]; intros a b; cbn; [reflexivity|].
  rewrite IH. reflexivity.
Qed.

Lemma reversed_involutive (s : string) : reversed (reversed s) = s.
Proof.
  unfold reversed. rewrite rev_string_twice. cbn. apply append_empty_r.
Qed.

Lemma rev_string_length (s : string) :
  forall acc,
    String.length (rev_string s acc) = (String.length s + String.length acc)%nat.
Proof.
  induction s as [|c s IH]; intros acc; cbn; [reflexivity|].
  rewrite IH. cbn. lia.
Qed.

Lemma rev_string_digits (s : string) :
  forall acc, all_digits (rev_string s acc) = all_digits s && all_digits acc.
Proof.
  induction s as [|c s IH]; intros acc; cbn; [reflexivity|].
  rewrite IH. cbn. destruct (is_digit c), (all_digits s); reflexivity.
Qed.

Lemma rev_string_commas (s : string) :
  forall acc,
    without_commas (rev_string s acc)
    = rev_string (without_commas s) (without_commas acc).
Proof.
  induction s as [|c s IH]; intros acc; cbn; [reflexivity|].
  rewrite IH. cbn. destruct (Ascii.eqb c ","); reflexivity.
Qed.

Lemma without_commas_cons (c : ascii) (s : string) :
  without_commas (String c s)
  = if Ascii.eqb c "," then without_commas s else String c (without_commas s).
Proof. reflexivity. Qed.

Lemma without_commas_comma (s : string) :
  without_commas (String "," s) = without_commas s.
Proof. reflexivity. Qed.

Lemma group_digits_four (c1 c2 c3 c4 : ascii) (s4 : string) :
  group_digits (String c1 (String c2 (String c3 (String c4 s4))))
  = if is_digit c1 && is_digit c2 && is_digit c3 && is_digit c4
    then String c1 (String c2 (String c3
           (String "," (group_digits (String c4 s4)))))
    else String c1 (group_digits (String c2 (String c3 (String c4 s4)))).
Proof. reflexivity. Qed.

(** The substitution adds commas and nothing else. *)
Lemma group_digits_commas (n : nat) :
  forall s, (String.length s <= n)%nat ->
            without_commas (group_digits s) = without_commas s.
Proof.
  induction n as [|n IH]; intros s Hlen.
  - destruct s; [reflexivity|cbn in Hlen; lia].
  - destruct s as [|c1 s1]; [reflexivity|].
    assert (H1 : without_commas (group_digits s1) = without_commas s1)
      by (apply IH; cbn in Hlen; lia).
    destruct s1 as [|c2 [|c3 [|c4 s4]]];
      try (cbn [group_digits without_commas] in *; now rewrite ?H1).
    rewrite group_digits_four.
    destruct (is_digit c1 && is_digit c2 && is_digit c3 && is_digit c4).
    + assert (H3 : without_commas (group_digits (String c4 s4))
                   = without_commas (String c4 s4))
        by (apply IH; cbn in Hlen |- *; lia).
      rewrite !(without_commas_cons c1), !(without_commas_cons c2),
        !(without_commas_cons c3), without_commas_comma, H3.
      reflexivity.
    + rewrite (without_commas_cons c1), H1. reflexivity.
Qed.

Lemma uint_commas (u : Decimal.uint) :
  without_commas (NilEmpty.string_of_uint u) = NilEmpty.string_of_uint u.
Proof. induction u; cbn; now rewrite ?IHu. Qed.

Lemma uint_digits (u : Decimal.uint) :
  all_digits (NilEmpty.string_of_uint u) = true.
Proof. induction u; cbn; now rewrite ?IHu. Qed.

Lemma str_commas (n : Z) : without_commas (str n) = str n.
Proof.
  unfold str, NilZero.string_of_int, NilZero.string_of_uint.
  destruct (Z.to_int n) as [u|u]; destruct u;
    cbn [without_commas]; try reflexivity;
    try (change (Ascii.eqb "-" ",") with false; cbv iota);
    rewrite ?(uint_commas (Decimal.D0 _)), ?(uint_commas (Decimal.D1 _)),
      ?(uint_commas (Decimal.D2 _)), ?(uint_commas (Decimal.D3 _)),
      ?(uint_commas (Decimal.D4 _)), ?(uint_commas (Decimal.D5 _)),
      ?(uint_commas (Decimal.D6 _)), ?(uint_commas (Decimal.D7 _)),
      ?(uint_commas (Decimal.D8 _)), ?(uint_commas (Decimal.D9 _));
    reflexivity.
Qed.

End Formatting.

Section Thousands.

Lemma group_digits_length (n : nat) :
  forall s, (String.length s <= n)%nat -> all_digits s = true ->
            String.length (group_digits s)
            = (String.length s + (String.length s - 1) / 3)%nat.
Proof.
  induction n as [|n IH]; intros s Hlen Hd.
  - destruct s; [reflexivity|cbn in Hlen; lia].
  - destruct s as [|c1 [|c2 [|c3 [|c4 s4]]]]; try reflexivity.
    rewrite group_digits_four.
    cbn [all_digits] in Hd.
    apply andb_prop in Hd as [H1 Hd]. apply andb_prop in Hd as [H2 Hd].
    apply andb_prop in Hd as [H3 Hd].
    assert (H4 : is_digit c4 = true) by (now apply andb_prop in Hd).
    rewrite H1, H2, H3, H4. cbn [andb String.length].
    rewrite IH; [|cbn in Hlen |- *; lia|exact Hd].
    cbn [String.length].
    replace (S (S (S (S (String.length s4)))) - 1)%nat
      with (String.length s4 + 1 * 3)%nat by lia.
    rewrite Nat.div_add by lia.
    replace (S (String.length s4) - 1)%nat with (String.length s4) by lia.
    lia.
Qed.

Lemma str_digits (n : Z) : 0 <= n -> all_digits (str n) = true.
Proof.
  intros Hn. unfold str, NilZero.string_of_int, NilZero.string_of_uint.
  destruct n as [|p|p]; [reflexivity| |lia].
  cbn [Z.to_int]. destruct (Pos.to_uint p) eqn:E;
    try reflexivity; rewrite <- E; apply uint_digits.
Qed.

(** Removing the commas from [splitThousands(n)] gives [str(n)] back: the
    function changes no digit and no sign. *)
Theorem splitThousands_keeps_digits (n : Z) :
  without_commas (splitThousands n) = str n.
Proof.
  unfold splitThousands, reversed.
  rewrite rev_string_commas. cbn [without_commas].
  rewrite (group_digits_commas _ _ (le_n _)).
  rewrite rev_string_commas. cbn [without_commas].
  rewrite str_commas. apply reversed_involutive.
Qed.

(** A number of at most three digits is returned as [str] prints it. *)
Theorem splitThousands_small (n : Z) :
  -1000 < n < 1000 -> splitThousands n = str n.
Proof.
  intros Hn.
  assert (Hall : forallb (fun k => String.eqb (splitThousands k) (str k))
                         (map (fun i => Z.of_nat i - 999) (seq 0 1999)) = true)
    by (vm_compute; reflexivity).
  rewrite forallb_forall in Hall.
  apply String.eqb_eq, Hall, in_map_iff.
  exists (Z.to_nat (n + 999)). split; [lia|].
  apply in_seq. lia.
Qed.

(** For [0 <= n] the result has one comma for every full group of three
    digits after the first digit. *)
Theorem splitThousands_length (n : Z) :
  0 <= n ->
  String.length (splitThousands n)
  = (String.length (str n) + (String.length (str n) - 1) / 3)%nat.
Proof.
  intros Hn. unfold splitThousands, reversed.
  rewrite rev_string_length. cbn [String.length]. rewrite Nat.add_0_r.
  rewrite (group_digits_length _ _ (le_n _)).
  - rewrite rev_string_length. cbn [String.length]. now rewrite Nat.add_0_r.
  - rewrite rev_string_digits, (str_digits n Hn). reflexivity.
Qed.

End Thousands.

Lemma splitThousands_small_witness :
  -1000 < 180 < 1000 /\ splitThousands 180 = "180"%string.
Proof.
  assert (H : -1000 < 180 < 1000) by lia.
  split; [exact H|]. exact (splitThousands_small 180 H).
Defined.

Lemma splitThousands_length_witness :
  0 <= 1234567
  /\ splitThousands 1234567 = "1,234,567"%string
  /\ String.length (splitThousands 1234567) = 9%nat.
Proof.
  assert (H : 0 <= 1234567) by lia.
  split; [exact H|]. split; [reflexivity|].
  exact (splitThousands_length 1234567 H).
Defined.

(** ** More on the sliver tool: bounds, the closure seam, interior rings *)

Section SliverMore.
Context {libm : Libm}.

(** A position without three vertices after it is answered with [-1] and
    a traceback: the index error stays inside the evaluator. *)
Theorem GetAngle_out_of_range (pntList : list Point) (iPnt : nat) :
  (List.length pntList < iPnt + 3)%nat ->
  exists e, SliverFinder.GetAngleFromPoints pntList iPnt = (-1, [errorMsg e]).
Proof.
  intros Hlen. unfold SliverFinder.GetAngleFromPoints.
  destruct (SliverFinder.sides pntList iPnt) as [e|x] eqn:Es.
  - now exists e.
  - apply sides_in_range in Es. lia.
Qed.

Lemma index_app_l {A : Type} (l l' : list A) (i : nat) :
  (i < List.length l)%nat -> index (l ++ l') i = index l i.
Proof. intros Hi. unfold index. now rewrite nth_error_app1. Qed.

Lemma index_app_r {A : Type} (l : list A) (a : A) :
  index (l ++ [a]) (List.length l) = inr a.
Proof.
  unfold index. rewrite nth_error_app2 by lia. now rewrite Nat.sub_diag.
Qed.

(** The wrap-around: a part with vertices [c] (at least two) reaches the
    angle loop as [c] with [c[1]] appended; the loop visits
    [len(c) - 1] positions, reads three consecutive vertices of [c] at
    each but the last, and at the last the two final vertices of [c]
    followed by [c[1]]. *)
Theorem walk_seam (part : Part) (c : list Point) :
  SliverFinder.collect part [] = c ->
  (2 <= List.length c)%nat ->
  exists l,
    SliverFinder.walk [part] [] = inr l
    /\ (List.length l - 2 = List.length c - 1)%nat
    /\ (forall i, (i + 2 < List.length c)%nat ->
                  SliverFinder.triple l i = SliverFinder.triple c i)
    /\ SliverFinder.triple l (List.length c - 2)
       = (a <- index c (List.length c - 2) ;;
          b <- index c (List.length c - 1) ;;
          v <- index c 1 ;;
          ret (a, b, v)).
Proof.
  intros Hc Hlen. cbn [SliverFinder.walk]. rewrite Hc.
  destruct (index_inr c 1) as [v1 Hv1]; [lia|].
  rewrite Hv1. cbn [bind]. exists (c ++ [v1]).
  split; [reflexivity|]. split; [rewrite length_app; cbn; lia|]. split.
  - intros i Hi. unfold SliverFinder.triple.
    rewrite !index_app_l by lia. reflexivity.
  - unfold SliverFinder.triple.
    rewrite (index_app_l c [v1] (0 + (List.length c - 2))) by lia.
    rewrite (index_app_l c [v1] (1 + (List.length c - 2))) by lia.
    replace (2 + (List.length c - 2))%nat with (List.length c) by lia.
    replace (1 + (List.length c - 2))%nat with (List.length c - 1)%nat by lia.
    rewrite index_app_r. cbn [Nat.add].
    destruct (index c (List.length c - 2)); [reflexivity|]. cbn [bind].
    destruct (index c (List.length c - 1)); reflexivity.
Qed.

Lemma collect_after_null (a b b' : Part) :
  forall acc,
    SliverFinder.collect (a ++ None :: b) acc
    = SliverFinder.collect (a ++ None :: b') acc.
Proof.
  induction a as [|[p|] a IH]; intros acc; cbn; [reflexivity|apply IH|reflexivity].
Qed.

Lemma walk_after_null (ps1 ps2 : list Part) (a b b' : Part) :
  forall l,
    SliverFinder.walk (ps1 ++ (a ++ None :: b) :: ps2) l
    = SliverFinder.walk (ps1 ++ (a ++ None :: b') :: ps2) l.
Proof.
  induction ps1 as [|p ps1 IH]; intros l; cbn [app SliverFinder.walk].
  - now rewrite (collect_after_null a b b').
  - destruct (index (SliverFinder.collect p []) 1); [reflexivity|].
    cbn [bind]. apply IH.
Qed.

Lemma scan_part_after_null (fid : Z) (minDist : float) (a b b' : Part) :
  forall pntList st,
    VertexProblems.scan_part fid minDist (a ++ None :: b) pntList st
    = VertexProblems.scan_part fid minDist (a ++ None :: b') pntList st.
Proof.
  induction a as [|[p|] a IH]; intros pntList st; cbn [app VertexProblems.scan_part];
    [reflexivity| |reflexivity].
  destruct (pntList ++ [p]) as [|x [|y [|z w]]]; apply IH.
Qed.

Lemma scan_parts_after_null (fid : Z) (minDist : float) (ps1 ps2 : list Part)
    (a b b' : Part) :
  forall st,
    VertexProblems.scan_parts fid minDist (ps1 ++ (a ++ None :: b) :: ps2) st
    = VertexProblems.scan_parts fid minDist (ps1 ++ (a ++ None :: b') :: ps2) st.
Proof.
  induction ps1 as [|p ps1 IH]; intros st; cbn [app VertexProblems.scan_parts].
  - rewrite (scan_part_after_null fid minDist a b b').
    destruct a; reflexivity.
  - destruct p; [reflexivity|apply IH].
Qed.

Lemma measure_same_walk (fid : Z) (minDist : float) (p0 p1 : Point)
    (st st' : VertexProblems.State) :
  same_walk st st' ->
  same_walk (VertexProblems.measure fid minDist p0 p1 st)
            (VertexProblems.measure fid minDist p0 p1 st').
Proof.
  intros (Hi & Hd & Hm & Hs & Hc & Hr & Hl).
  unfold VertexProblems.measure. rewrite Hi, Hd, Hm, Hs, Hc, Hr, Hl.
  destruct (_ <? minDist)%float; repeat split.
Qed.

Lemma scan_part_same_walk (fid : Z) (minDist : float) (part : Part) :
  forall pntList st st',
    same_walk st st' ->
    same_walk (VertexProblems.scan_part fid minDist part pntList st)
              (VertexProblems.scan_part fid minDist part pntList st').
Proof.
  induction part as [|[p|] part IH]; intros pntList st st' Hs;
    cbn [VertexProblems.scan_part]; [exact Hs| |exact Hs].
  destruct (pntList ++ [p]) as [|x [|y [|z w]]]; apply IH; try exact Hs.
  now apply measure_same_walk.
Qed.

Lemma scan_parts_same_walk (fid : Z) (minDist : float) (ps : list Part) :
  forall st st',
    same_walk st st' ->
    match VertexProblems.scan_parts fid minDist ps st,
          VertexProblems.scan_parts fid minDist ps st' with
    | inr st1, inr st1' => same_walk st1 st1'
    | inl e, inl e' => e = e'
    | _, _ => False
    end.
Proof.
  induction ps as [|part ps IH]; intros st st' Hs;
    cbn [VertexProblems.scan_parts]; [exact Hs|].
  destruct part as [|x part]; [reflexivity|].
  apply IH. now apply scan_part_same_walk.
Qed.

Lemma write_stats_findings (theUnits : string) (row : VertexProblems.Row)
    (st : VertexProblems.State) :
  same_findings st (final (VertexProblems.write_stats theUnits row st)).
Proof.
  unfold VertexProblems.write_stats, VertexProblems.failed.
  destruct (VertexProblems.acres_of theUnits (VertexProblems.theArea row));
    [|repeat split].
  destruct (VertexProblems.iPnts st), (VertexProblems.iSeg st) eqn:Es,
    (VertexProblems.iPartCnt st) eqn:Ec; try (repeat split; fail).
  destruct (float_div _ _); repeat split; cbn; congruence.
Qed.

(** Interior rings are not read by the vertex walks.  What follows the
    first null of a part changes nothing in the step of the sliver tool,
    whatever point count the host reports.  In the segment tool it changes
    nothing in the findings of the walk (flag records and their count,
    smallest segment length, multipart flag and value), nor in POLYID,
    MIN_DIST and MULTIPART of the row written, whatever point count, area
    and perimeter the host reports; those three values, which cover the
    interior rings, go into VERTICES, AVI and ACRES, and where they agree
    the whole step is the same. *)
Theorem after_null_ignored (ps1 ps2 : list Part) (a b b' : Part) (n n' : Z) :
  (forall (minAngle fid : Z) (st : SliverFinder.State),
      SliverFinder.read_row minAngle st
        (fid, Some {| parts := ps1 ++ (a ++ None :: b) :: ps2; pointCount := n |})
      = SliverFinder.read_row minAngle st
          (fid, Some {| parts := ps1 ++ (a ++ None :: b') :: ps2;
                        pointCount := n' |}))
  /\ (forall (theUnits : string) (minDist : float) (st : VertexProblems.State)
             (fid : Z) (area area' perimeter perimeter' : float),
         let s :=
           VertexProblems.read_row theUnits minDist st
             {| VertexProblems.fid := fid;
                VertexProblems.feat :=
                  Some {| parts := ps1 ++ (a ++ None :: b) :: ps2;
                          pointCount := n |};
                VertexProblems.theArea := area;
                VertexProblems.thePerimeter := perimeter |} in
         let s' :=
           VertexProblems.read_row theUnits minDist st
             {| VertexProblems.fid := fid;
                VertexProblems.feat :=
                  Some {| parts := ps1 ++ (a ++ None :: b') :: ps2;
                          pointCount := n' |};
                VertexProblems.theArea := area';
                VertexProblems.thePerimeter := perimeter' |} in
         same_findings (final s) (final s')
         /\ (forall st1 st1',
                s = VertexProblems.Continue st1 ->
                s' = VertexProblems.Continue st1' ->
                exists r r',
                  VertexProblems.statsRows st1
                  = VertexProblems.statsRows st ++ [r]
                  /\ VertexProblems.statsRows st1'
                     = VertexProblems.statsRows st ++ [r']
                  /\ VertexProblems.POLYID r' = VertexProblems.POLYID r
                  /\ VertexProblems.MIN_DIST r' = VertexProblems.MIN_DIST r
                  /\ VertexProblems.MULTIPART r' = VertexProblems.MULTIPART r)
         /\ (n = n' -> area = area' -> perimeter = perimeter' -> s = s')).
Proof.
  split.
  - intros minAngle fid st. unfold SliverFinder.read_row, partCount.
    cbn [parts]. rewrite !length_app. cbn [List.length].
    now rewrite (walk_after_null ps1 ps2 a b b').
  - intros theUnits minDist st fid area area' perimeter perimeter' s s'.
    pose (g := {| parts := ps1 ++ (a ++ None :: b) :: ps2; pointCount := n |}).
    pose (g' := {| parts := ps1 ++ (a ++ None :: b') :: ps2; pointCount := n' |}).
    assert (Hpc : partCount g' = partCount g).
    { unfold partCount. cbn [parts g g']. rewrite !length_app. reflexivity. }
    assert (He : same_walk (VertexProblems.enter fid g st)
                           (VertexProblems.enter fid g' st)).
    { unfold VertexProblems.enter. rewrite Hpc. repeat split. }
    assert (Hrows : VertexProblems.statsRows (VertexProblems.enter fid g st)
                    = VertexProblems.statsRows st) by reflexivity.
    assert (Hrows' : VertexProblems.statsRows (VertexProblems.enter fid g' st)
                     = VertexProblems.statsRows st) by reflexivity.
    pose proof (scan_parts_same_walk fid minDist (parts g') _ _ He) as Hw.
    pose proof (scan_parts_after_null fid minDist ps1 ps2 a b b'
                  (VertexProblems.enter fid g st)) as Hn.
    cbn [parts g'] in Hw.
    unfold s, s', VertexProblems.read_row.
    cbn [VertexProblems.feat VertexProblems.fid parts]. fold g g'.
    rewrite Hn.
    split; [|split].
    + destruct (VertexProblems.scan_parts fid minDist
                  (ps1 ++ (a ++ None :: b') :: ps2)
                  (VertexProblems.enter fid g st)) as [e|st1],
               (VertexProblems.scan_parts fid minDist
                  (ps1 ++ (a ++ None :: b') :: ps2)
                  (VertexProblems.enter fid g' st)) as [e'|st1'];
        try contradiction.
      * destruct He as (Hi & Hd & Hm & Hs & Hc & _). repeat split; assumption.
      * destruct Hw as (Hi & Hd & Hm & Hs & Hc & _).
        destruct (write_stats_findings theUnits
                    {| VertexProblems.fid := fid; VertexProblems.feat := Some g;
                       VertexProblems.theArea := area;
                       VertexProblems.thePerimeter := perimeter |} st1)
          as (Hi1 & Hd1 & Hm1 & Hs1 & Hc1).
        destruct (write_stats_findings theUnits
                    {| VertexProblems.fid := fid; VertexProblems.feat := Some g';
                       VertexProblems.theArea := area';
                       VertexProblems.thePerimeter := perimeter' |} st1')
          as (Hi2 & Hd2 & Hm2 & Hs2 & Hc2).
        repeat split; congruence.
    + intros st2 st2'.
      destruct (VertexProblems.scan_parts fid minDist
                  (ps1 ++ (a ++ None :: b') :: ps2)
                  (VertexProblems.enter fid g st)) as [e|st1] eqn:E1,
               (VertexProblems.scan_parts fid minDist
                  (ps1 ++ (a ++ None :: b') :: ps2)
                  (VertexProblems.enter fid g' st)) as [e'|st1'] eqn:E2;
        try contradiction; try discriminate.
      intros H2 H2'.
      destruct (write_stats_row _ _ _ _ H2) as (r & Hr & Hid & Hseg & Hcnt).
      destruct (write_stats_row _ _ _ _ H2') as (r' & Hr' & Hid' & Hseg' & Hcnt').
      destruct Hw as (_ & _ & _ & Hs & Hc & _).
      destruct (scan_parts_table _ _ _ _ _ E1) as (Ht & _).
      destruct (scan_parts_table _ _ _ _ _ E2) as (Ht' & _).
      exists r, r'. rewrite Hr, Hr', Ht, Ht', Hrows, Hrows'.
      cbn [VertexProblems.fid] in Hid, Hid'.
      repeat split; congruence.
    + intros <- <- <-. fold g in g'.
      destruct (VertexProblems.scan_parts fid minDist
                  (ps1 ++ (a ++ None :: b') :: ps2)
                  (VertexProblems.enter fid g st)) as [e|st1] eqn:E1.
      * assert (Hg : VertexProblems.enter fid g st
                     = VertexProblems.enter fid g' st).
        { unfold VertexProblems.enter. rewrite Hpc. reflexivity. }
        rewrite <- Hg, E1. reflexivity.
      * assert (Hg : VertexProblems.enter fid g st
                     = VertexProblems.enter fid g' st).
        { unfold VertexProblems.enter. rewrite Hpc. reflexivity. }
        rewrite <- Hg, E1. reflexivity.
Qed.

Lemma walk_total (ps : list Part) :
  Forall (fun p => (2 <= List.length (SliverFinder.collect p []))%nat) ps ->
  forall acc, exists l, SliverFinder.walk ps acc = inr l.
Proof.
  induction 1 as [|p ps Hp _ IH]; intros acc; cbn [SliverFinder.walk].
  - exists acc. reflexivity.
  - destruct (index_inr (SliverFinder.collect p []) 1) as [v1 Hv1]; [lia|].
    rewrite Hv1. cbn [bind]. apply IH.
Qed.

(** The angle loop of the sliver tool stands after its part loop.  As the
    code is written, for a polygon each of whose parts has two vertices or
    more in front of its first null, the loop runs once, over the vertex
    list of the last part closed by its vertex 1: the step is the one of
    the polygon made of that part alone, and the parts in front of it
    contribute no location. *)
Theorem sliver_last_part (minAngle fid : Z) (st : SliverFinder.State)
    (g : Geometry) (ps : list Part) (part : Part) :
  parts g = ps ++ [part] ->
  Forall (fun p => (2 <= List.length (SliverFinder.collect p []))%nat)
         (parts g) ->
  exists v1,
    index (SliverFinder.collect part []) 1 = inr v1
    /\ SliverFinder.read_row minAngle st (fid, Some g)
       = SliverFinder.scan (SliverFinder.collect part [] ++ [v1]) fid minAngle
           (seq 0 (List.length (SliverFinder.collect part []) - 1)) st
    /\ SliverFinder.read_row minAngle st (fid, Some g)
       = SliverFinder.read_row minAngle st
           (fid, Some {| parts := [part]; pointCount := pointCount g |}).
Proof.
  intros Hp Hall.
  destruct (walk_total (parts g) Hall []) as [l Hl].
  pose proof Hl as Hlast. rewrite Hp in Hlast. apply walk_last in Hlast.
  assert (Hpart : (2 <= List.length (SliverFinder.collect part []))%nat).
  { rewrite Hp in Hall. apply Forall_app in Hall as [_ Hall].
    now inversion Hall. }
  destruct (index_inr (SliverFinder.collect part []) 1) as [v1 Hv1]; [lia|].
  exists v1. split; [exact Hv1|].
  assert (El : l = SliverFinder.collect part [] ++ [v1]).
  { cbn [SliverFinder.walk] in Hlast. rewrite Hv1 in Hlast.
    cbn [bind ret] in Hlast. now injection Hlast as <-. }
  assert (Hn : (0 <? partCount g) = true).
  { unfold partCount. rewrite Hp, length_app. cbn. apply Z.ltb_lt. lia. }
  assert (Hs : SliverFinder.read_row minAngle st (fid, Some g)
               = SliverFinder.scan l fid minAngle
                   (seq 0 (List.length l - 2)) st).
  { unfold SliverFinder.read_row. now rewrite Hn, Hl. }
  split.
  - rewrite Hs, El, length_app. cbn [List.length].
    replace (List.length (SliverFinder.collect part []) + 1 - 2)%nat
      with (List.length (SliverFinder.collect part []) - 1)%nat by lia.
    reflexivity.
  - rewrite Hs. unfold SliverFinder.read_row, partCount.
    cbn [parts List.length Z.of_nat Pos.of_succ_nat Z.ltb Z.compare].
    now rewrite Hlast.
Qed.

End SliverMore.

(** The square in front of the triangle: the step is the one of the
    triangle alone. *)
Lemma sliver_last_part_witness :
  SliverFinder.read_row (libm := sample_libm) 90 SliverFinder.init
    (5, Some two_part_geometry)
  = SliverFinder.read_row (libm := sample_libm) 90 SliverFinder.init
      (5, Some {| parts := [triangle]; pointCount := 9 |}).
Proof.
  destruct (@sliver_last_part sample_libm 90 5 SliverFinder.init
              two_part_geometry [square] triangle eq_refl)
    as (v1 & _ & _ & H).
  - repeat constructor; cbn; lia.
  - exact H.
Defined.

Lemma GetAngle_out_of_range_witness :
  (List.length corner < 1 + 3)%nat
  /\ exists e, SliverFinder.GetAngleFromPoints (libm := sample_libm) corner 1
               = (-1, [errorMsg e]).
Proof.
  assert (H : (List.length corner < 1 + 3)%nat) by (cbn; lia).
  split; [exact H|]. exact (@GetAngle_out_of_range sample_libm corner 1%nat H).
Defined.

Lemma walk_seam_witness :
  exists l,
    SliverFinder.walk [square] [] = inr l
    /\ SliverFinder.triple l 3 = inr ((0, 10), (0, 0), (10, 0))%float.
Proof.
  destruct (walk_seam square [(0, 0); (10, 0); (10, 10); (0, 10); (0, 0)]%float
              eq_refl) as (l & Hw & _ & _ & Hs); [cbn; lia|].
  exists l. split; [exact Hw|exact Hs].
Defined.

(** ** More on the sliver tool: counting and writing *)

Section SliverCount.
Context {libm : Libm}.

Import SliverFinder.

Lemma flag_bump_numbered (d : Sliver) (st : State) :
  consistent st -> numbered st -> numbered (flag d (bump st)).
Proof.
  intros Hc [Hk Hi]. destruct (flag_bump d st Hc) as [_ HL].
  unfold numbered. rewrite HL. unfold keys in *.
  rewrite map_app, length_app, Hk. cbn [map fst List.length].
  rewrite Nat.add_1_r, seq_S, map_app. cbn [map bump flag iErr].
  split; [|lia]. f_equal. f_equal. lia.
Qed.

Lemma scan_numbered (pntList : list Point) (fid minAngle : Z) (todo : list nat) :
  Forall (fun i => (i + 2 < List.length pntList)%nat) todo ->
  forall st, consistent st -> numbered st ->
             numbered (scan pntList fid minAngle todo st).
Proof.
  induction todo as [|i todo IH]; intros Hv st Hc Hn; [exact Hn|].
  inversion Hv as [|? ? Hi Hv']; subst.
  destruct (triple_inr pntList i Hi) as [t Ht].
  cbn [scan]. rewrite Ht.
  destruct (GetAngleFromPoints pntList i) as [theAngle ms].
  destruct (theAngle <=? minAngle).
  - apply IH; [exact Hv'| |].
    + apply flag_bump. now apply consistent_say.
    + apply flag_bump_numbered; [now apply consistent_say|exact Hn].
  - apply IH; [exact Hv'|now apply consistent_say|exact Hn].
Qed.

Lemma read_row_numbered (minAngle : Z) (row : Row) (st : State) :
  consistent st -> numbered st -> numbered (read_row minAngle st row).
Proof.
  intros Hc Hn. destruct row as [fid [g|]]; unfold read_row; [|exact Hn].
  destruct (0 <? partCount g); [|exact Hn].
  destruct (walk (parts g) []) as [e|pntList]; [exact Hn|].
  apply scan_numbered; [apply seq_valid|exact Hc|exact Hn].
Qed.

Lemma fold_read_row_numbered (minAngle : Z) (rows : list Row) :
  forall st, consistent st -> numbered st ->
             numbered (fold_left (read_row minAngle) rows st).
Proof.
  induction rows as [|row rows IH]; intros st Hc Hn; [exact Hn|].
  cbn [fold_left]. apply IH.
  - now apply read_row_spec.
  - now apply read_row_numbered.
Qed.

(** After the pass the flagged locations carry the keys 1, 2, ... in
    discovery order in both dictionaries, and [iErr] is their number. *)
Theorem sliver_keys_count (rows : list Row) (minAngle : Z) :
  let st := read_rows minAngle rows in
  keys (dLines st) = map Z.of_nat (seq 1 (List.length (dLines st)))
  /\ keys (dTest st) = keys (dLines st)
  /\ iErr st = Z.of_nat (List.length (flat_map (flagged_in_row minAngle) rows)).
Proof.
  destruct (read_rows_spec minAngle rows) as (Hc & Hv & _).
  destruct (fold_read_row_numbered minAngle rows init consistent_init)
    as [Hk Hi]; [split; reflexivity|].
  fold (read_rows minAngle rows) in Hk, Hi. cbn zeta in *.
  split; [exact Hk|]. split; [now apply keys_dTest|].
  rewrite Hi, <- Hv. unfold values. now rewrite length_map.
Qed.

(** How a run of the sliver tool ends: with a polygon of bad geometry it
    fails and writes nothing; without, it succeeds and writes both layers
    from the flagged locations, ordered by angle. *)
Lemma sliver_output (rows : list Row) (minAngle : Z) :
  let out := ProcessLayer rows minAngle in
  let discovered := flat_map (flagged_in_row minAngle) rows in
  (filter bad_geometry rows <> []
   /\ returned out = false /\ lineRows out = [] /\ pointRows out = [])
  \/ (filter bad_geometry rows = []
      /\ returned out = true
      /\ messages out = log (read_rows minAngle rows)
      /\ exists written,
           lineRows out = map line_row written
           /\ pointRows out = map point_row written
           /\ Permutation written discovered).
Proof.
  intros out discovered.
  destruct (read_rows_spec minAngle rows) as (Hc & Hv & Hb).
  cbn zeta in Hc, Hv, Hb.
  destruct (written_spec _ Hc) as (written & Hl & Hp & _ & _).
  rewrite Hv in Hp. fold discovered in Hp.
  unfold out, ProcessLayer. rewrite Hb.
  destruct (filter bad_geometry rows) as [|r bad] eqn:Hf.
  - right. split; [reflexivity|].
    change (0 <? List.length (map (fun row : Row => str (fst row)) []))%nat
      with false. cbv iota.
    destruct (0 <? List.length (dLines (read_rows minAngle rows)))%nat eqn:Hlen.
    + rewrite Hl. cbn. repeat split. now exists written.
    + cbn. repeat split. exists []. repeat split.
      apply Nat.ltb_ge in Hlen.
      assert (Hd : discovered = []).
      { unfold discovered. rewrite <- Hv. unfold values.
        destruct (dLines (read_rows minAngle rows));
          [reflexivity|cbn in Hlen; lia]. }
      rewrite Hd. constructor.
  - left. split; [discriminate|]. cbn. auto.
Qed.

(** The run succeeds exactly when no polygon has bad geometry. *)
Theorem sliver_returns (rows : list Row) (minAngle : Z) :
  returned (ProcessLayer rows minAngle) = true
  <-> filter bad_geometry rows = [].
Proof.
  destruct (sliver_output rows minAngle) as [(Hb & Hr & _)|(Hb & Hr & _)];
    rewrite Hr; split; intros H; try reflexivity; try discriminate;
    try exact Hb; contradiction.
Qed.

(** Every line written is a flagged location of an input polygon: three
    vertices at consecutive positions of the list walked for that polygon,
    its identifier, and the angle evaluated there, which is at most
    [minAngle]. *)
Theorem sliver_lines_are_slivers (rows : list Row) (minAngle : Z) (r : LineRow) :
  In r (lineRows (ProcessLayer rows minAngle)) ->
  exists row g pntList i t,
    In row rows /\ snd row = Some g
    /\ walk (parts g) [] = inr pntList
    /\ (i < List.length pntList - 2)%nat
    /\ triple pntList i = inr t
    /\ fst (GetAngleFromPoints pntList i) <= minAngle
    /\ r = line_row (t, fst row, fst (GetAngleFromPoints pntList i)).
Proof.
  intros Hin.
  destruct (sliver_output rows minAngle)
    as [(_ & _ & Hl & _)|(_ & _ & _ & written & Hl & _ & Hp)];
    rewrite Hl in Hin; [contradiction|].
  apply in_map_iff in Hin as (d & <- & Hd).
  eapply Permutation_in in Hd; [|exact Hp].
  apply in_flat_map in Hd as (row & Hrow & Hd).
  unfold flagged_in_row in Hd.
  destruct (snd row) as [g|] eqn:Eg; [|contradiction].
  destruct (0 <? partCount g); [|contradiction].
  destruct (walk (parts g) []) as [e|pntList] eqn:Ew; [contradiction|].
  apply in_flagged in Hd as (i & t & Hi & Ht & Hle & ->).
  exists row, g, pntList, i, t. apply in_seq in Hi.
  repeat split; try assumption; lia.
Qed.

(** The two layers go together: the point rows are as many as the line
    rows and in the same order, each point the middle vertex of its line,
    with the same polygon identifier and the angle as text with a degree
    sign. *)
Theorem sliver_points_match_lines (rows : list Row) (minAngle : Z) :
  let out := ProcessLayer rows minAngle in
  Forall2 (fun (lr : LineRow) (pr : PointRow) =>
             exists p0 p1 p2,
               fst (fst lr) = [p0; p1; p2]
               /\ pr = (p1, snd (fst lr), (str (snd lr) ++ degree_sign)%string))
          (lineRows out) (pointRows out).
Proof.
  intros out.
  destruct (sliver_output rows minAngle)
    as [(_ & _ & Hl & Hp)|(_ & _ & _ & written & Hl & Hp & _)];
    fold out in Hl, Hp; rewrite Hl, Hp; [constructor|].
  clear. induction written as [|[[[[p0 p1] p2] fid] a] written IH];
    constructor; [|exact IH].
  exists p0, p1, p2. split; reflexivity.
Qed.

End SliverCount.

Lemma sliver_lines_are_slivers_witness :
  exists row g pntList i t,
    In row order_rows /\ snd row = Some g
    /\ SliverFinder.walk (parts g) [] = inr pntList
    /\ (i < List.length pntList - 2)%nat
    /\ SliverFinder.triple pntList i = inr t
    /\ fst (SliverFinder.GetAngleFromPoints (libm := sample_libm) pntList i) <= 90
    /\ ([(10, 0); (10, 10); (10, 10)]%float, 4, 0)
       = SliverFinder.line_row
           (t, fst row,
            fst (SliverFinder.GetAngleFromPoints (libm := sample_libm) pntList i)).
Proof.
  apply (@sliver_lines_are_slivers sample_libm order_rows 90).
  vm_compute. left. reflexivity.
Defined.

(** ** More on the segment tool: minimum, table, flags *)

Section SegmentMore.
Context {libm : Libm}.

Import VertexProblems.

Lemma measure_iSeg (fid : Z) (minDist : float) (p0 p1 : Point) (st : State) :
  iSeg (measure fid minDist p0 p1 st)
  = option_map (fun s => if (distance (p0, p1) <? s)%float
                         then distance (p0, p1) else s) (iSeg st).
Proof.
  unfold measure, distance. cbn zeta.
  destruct (libm_hypot (fst p0 - fst p1) (snd p0 - snd p1) <? minDist)%float;
    cbn [iSeg]; destruct (iSeg st) as [s|]; cbn [option_map];
    try reflexivity;
    destruct (libm_hypot (fst p0 - fst p1) (snd p0 - snd p1) <? s)%float;
    reflexivity.
Qed.

Lemma option_map_running_min (ds1 ds2 : list float) (o : option float) :
  option_map (running_min ds2) (option_map (running_min ds1) o)
  = option_map (running_min (ds1 ++ ds2)) o.
Proof.
  destruct o; cbn; [|reflexivity]. unfold running_min.
  now rewrite fold_left_app.
Qed.

Lemma scan_part_from_iSeg (fid : Z) (minDist : float) (part : Part) :
  forall (p : Point) (st : State),
    iSeg (scan_part fid minDist part [p] st)
    = option_map (running_min (map distance (pairs (p :: ring part))))
                 (iSeg st).
Proof.
  induction part as [|[q|] rest IH]; intros p st.
  - cbn. now destruct (iSeg st).
  - cbn [scan_part app ring pairs map]. rewrite IH, measure_iSeg.
    destruct (iSeg st); reflexivity.
  - cbn. now destruct (iSeg st).
Qed.

Lemma scan_part_iSeg (fid : Z) (minDist : float) (part : Part) (st : State) :
  iSeg (scan_part fid minDist part [] st)
  = option_map (running_min (segment_lengths part)) (iSeg st).
Proof.
  unfold segment_lengths. destruct part as [|[p|] rest].
  - cbn. now destruct (iSeg st).
  - cbn [scan_part app]. apply scan_part_from_iSeg.
  - cbn. now destruct (iSeg st).
Qed.

(** The minimum kept while walking a polygon is the smallest of the seed
    and the lengths of all its segments, whatever [minDist] is. *)
Theorem scan_parts_minimum (fid : Z) (minDist : float) (ps : list Part) :
  forall st st',
    scan_parts fid minDist ps st = inr st' ->
    iSeg st' = option_map (running_min (flat_map segment_lengths ps)) (iSeg st).
Proof.
  induction ps as [|part ps IH]; intros st st' Hs.
  - cbn in Hs. injection Hs as <-. cbn. now destruct (iSeg st).
  - cbn [scan_parts] in Hs. destruct part as [|x part]; [discriminate|].
    rewrite (IH _ _ Hs), scan_part_iSeg. cbn [flat_map].
    apply option_map_running_min.
Qed.

(** The same from a bound seed, as the loop body uses it. *)
Lemma scan_parts_seeded (fid : Z) (minDist : float) (ps : list Part) :
  forall st st' seed,
    scan_parts fid minDist ps st = inr st' ->
    iSeg st = Some seed ->
    iSeg st' = Some (running_min (flat_map segment_lengths ps) seed).
Proof.
  induction ps as [|part ps IH]; intros st st' seed Hs Hseed.
  - cbn in Hs. injection Hs as <-. exact Hseed.
  - cbn [scan_parts] in Hs. destruct part as [|x part]; [discriminate|].
    pose proof (scan_part_iSeg fid minDist (x :: part) st) as Hp.
    rewrite Hseed in Hp. cbn [option_map] in Hp.
    rewrite (IH _ _ _ Hs Hp). cbn [flat_map]. f_equal.
    unfold running_min. now rewrite fold_left_app.
Qed.

(** What the loop body does with a well-formed polygon. *)
Lemma read_row_describes (theUnits : string) (minDist : float) (st : State)
    (row : Row) (r : StatsRow) :
  describes theUnits row r ->
  exists st',
    read_row theUnits minDist st row = Continue st'
    /\ statsRows st' = statsRows st ++ [r].
Proof.
  intros (g & acres & Hf & Hne & Hz & Ha & ->).
  unfold read_row. rewrite Hf.
  destruct (scan_parts_spec (fid row) minDist (parts g) Hne
              (enter (fid row) g st))
    as (st1 & Hs & _ & (Hrows & _ & _ & Hn & Hc)).
  rewrite Hs.
  pose proof (scan_parts_seeded _ _ _ _ _ _ Hs eq_refl) as Hmin.
  unfold write_stats. rewrite Ha, Hn, Hc, Hmin.
  cbn [enter iPnts iSeg iPartCnt].
  unfold float_div. rewrite Hz.
  eexists. split; [reflexivity|].
  cbn [statsRows]. rewrite Hrows. reflexivity.
Qed.

Lemma read_rows_describes (theUnits : string) (minDist : float)
    (rows : list Row) (table : list StatsRow) :
  Forall2 (describes theUnits) rows table ->
  forall st, exists st',
    read_rows theUnits minDist rows st = Continue st'
    /\ statsRows st' = statsRows st ++ table.
Proof.
  induction 1 as [|row r rows table Hd _ IH]; intros st.
  - exists st. cbn. now rewrite app_nil_r.
  - destruct (read_row_describes theUnits minDist st row r Hd) as (st1 & H1 & Hr1).
    destruct (IH st1) as (st' & H2 & Hr2).
    exists st'. cbn [read_rows]. rewrite H1. split; [exact H2|].
    rewrite Hr2, Hr1, <- app_assoc. reflexivity.
Qed.

(** On a layer of well-formed polygons the run succeeds and the
    statistics table holds one row per polygon, in cursor order: its
    identifier, acres, the host's point count, the perimeter divided by the
    point count, the smallest segment length, and the multipart value. *)
Theorem stats_table_well_formed (theUnits : string) (rows : list Row)
    (table : list StatsRow) (outLayer : string) (minDist : float) :
  rows <> [] ->
  Forall2 (describes theUnits) rows table ->
  let out := ProcessLayer theUnits rows outLayer minDist in
  returned out = true /\ statsTable out = table.
Proof.
  intros Hne Hd out.
  destruct (read_rows_describes theUnits minDist rows table Hd init)
    as (st' & Hr & Hs).
  unfold out, ProcessLayer. rewrite Hr.
  destruct rows; [contradiction|]. cbn. split; [reflexivity|exact Hs].
Qed.

Lemma write_stats_frame (theUnits : string) (row : Row) (st : State) :
  let st' := final (write_stats theUnits row st) in
  dPoints st' = dPoints st /\ iCnt st' = iCnt st.
Proof.
  unfold write_stats, failed.
  destruct (acres_of theUnits (theArea row)); [|cbn; auto].
  destruct (iPnts st), (iSeg st), (iPartCnt st); cbn; auto.
  destruct (float_div _ _); cbn; auto.
Qed.

(** A property of the flags and their counter that every measured segment
    keeps is kept by the whole reading loop. *)
Lemma flags_invariant (theUnits : string) (minDist : float)
    (I : dict (list MidPnt) -> Z -> Prop) :
  (forall fid p0 p1 st,
      I (dPoints st) (iCnt st) ->
      I (dPoints (measure fid minDist p0 p1 st))
        (iCnt (measure fid minDist p0 p1 st))) ->
  forall rows st,
    I (dPoints st) (iCnt st) ->
    I (dPoints (final (read_rows theUnits minDist rows st)))
      (iCnt (final (read_rows theUnits minDist rows st))).
Proof.
  intros Hm.
  assert (Hpart : forall fid part pntList st,
             I (dPoints st) (iCnt st) ->
             I (dPoints (scan_part fid minDist part pntList st))
               (iCnt (scan_part fid minDist part pntList st))).
  { intros fid part. induction part as [|[p|] part IH]; intros pntList st Hi;
      cbn [scan_part]; [exact Hi| |exact Hi].
    destruct (pntList ++ [p]) as [|x [|y [|z w]]]; try (now apply IH).
    apply IH. now apply Hm. }
  assert (Hparts : forall fid ps st st',
             I (dPoints st) (iCnt st) ->
             scan_parts fid minDist ps st = inr st' ->
             I (dPoints st') (iCnt st')).
  { intros fid ps. induction ps as [|part ps IH]; intros st st' Hi Hs.
    - cbn in Hs. now injection Hs as <-.
    - cbn [scan_parts] in Hs. destruct part as [|x part]; [discriminate|].
      eapply IH; [|exact Hs]. now apply Hpart. }
  assert (Hrow : forall st row,
             I (dPoints st) (iCnt st) ->
             I (dPoints (final (read_row theUnits minDist st row)))
               (iCnt (final (read_row theUnits minDist st row)))).
  { intros st row Hi. unfold read_row. destruct (feat row) as [g|].
    - destruct (scan_parts (fid row) minDist (parts g) (enter (fid row) g st))
        as [e|st1] eqn:Es.
      + exact Hi.
      + destruct (write_stats_frame theUnits row st1) as [-> ->].
        eapply Hparts; [|exact Es]. exact Hi.
    - destruct (write_stats_frame theUnits row
                  (say [AddMsg ("NULL geometry for polygon #"
                                  ++ str (fid row))%string 2] st)) as [-> ->].
      exact Hi. }
  induction rows as [|row rows IH]; intros st Hi; [exact Hi|].
  cbn [read_rows]. specialize (Hrow st row Hi).
  destruct (read_row theUnits minDist st row) as [st1|st1]; cbn [final] in *.
  - now apply IH.
  - exact Hrow.
Qed.

End SegmentMore.

Section DictMore.
Context {V : Type}.

Lemma dict_get_some_in (k : Z) (v : V) (d : dict V) :
  dict_get k d = Some v -> In (k, v) d.
Proof.
  induction d as [|[k' v'] d IH]; cbn; [discriminate|].
  destruct (Z.eqb_spec k k') as [->|Hne].
  - intros H. injection H as <-. now left.
  - intros H. right. now apply IH.
Qed.

Lemma dict_get_none (k : Z) (d : dict V) :
  dict_get k d = None -> ~ In k (keys d).
Proof.
  induction d as [|[k' v'] d IH]; cbn; [tauto|].
  destruct (Z.eqb_spec k k') as [->|Hne]; [discriminate|].
  intros H [Heq|Hin]; [congruence|now apply IH].
Qed.

Lemma keys_set_present (k : Z) (v old : V) (d : dict V) :
  dict_get k d = Some old -> keys (dict_set k v d) = keys d.
Proof.
  induction d as [|[k' v'] d IH]; cbn; [discriminate|].
  destruct (Z.eqb_spec k k') as [->|Hne]; [reflexivity|].
  intros H. cbn. f_equal. now apply IH.
Qed.

Lemma Forall_dict_set (P : Z * V -> Prop) (k : Z) (v : V) (d : dict V) :
  Forall P d -> P (k, v) -> Forall P (dict_set k v d).
Proof.
  intros Hd Hp. induction Hd as [|[k' v'] d Hx Hd IH]; cbn.
  - now constructor.
  - destruct (k =? k'); constructor; assumption.
Qed.

End DictMore.

Section SegmentFlags.
Context {libm : Libm}.

Import VertexProblems.

Lemma count_set_present (k : Z) (old : list MidPnt) (m : MidPnt)
    (d : dict (list MidPnt)) :
  dict_get k d = Some old ->
  List.length (List.concat (values (dict_set k (old ++ [m]) d)))
  = S (List.length (List.concat (values d))).
Proof.
  induction d as [|[k' v'] d IH]; cbn; [discriminate|].
  destruct (Z.eqb_spec k k') as [->|Hne].
  - intros H. injection H as ->. cbn. rewrite !length_app. cbn. lia.
  - intros H. cbn. rewrite !length_app. unfold values in IH.
    rewrite (IH H). lia.
Qed.

Lemma count_set_absent (k : Z) (m : MidPnt) (d : dict (list MidPnt)) :
  dict_get k d = None ->
  List.length (List.concat (values (dict_set k [m] d)))
  = S (List.length (List.concat (values d))).
Proof.
  intros H. rewrite dict_set_fresh by (now apply dict_get_none).
  unfold values. rewrite map_app, concat_app, length_app. cbn. lia.
Qed.

(** The point rows a run writes are the flags, when an output layer was
    asked for and the run succeeded; otherwise there are none. *)
Lemma segment_points (theUnits : string) (rows : list Row) (outLayer : string)
    (minDist : float) :
  let out := ProcessLayer theUnits rows outLayer minDist in
  let st := final (read_rows theUnits minDist rows init) in
  pointRows out = []
  \/ (returned out = true /\ outLayer <> ""%string
      /\ pointRows out = List.concat (values (dPoints st))).
Proof.
  unfold ProcessLayer.
  destruct (read_rows theUnits minDist rows init) as [st|st]; cbn [final];
    [|now left].
  destruct rows; [now left|]. cbn [pointRows returned].
  destruct (String.eqb_spec outLayer "") as [->|Hne]; [now left|].
  cbn [negb andb].
  destruct (0 <? List.length (dPoints st))%nat; [|now left].
  right. auto.
Qed.

(** [iCnt] counts the flags: after the reading loop it is the number of
    flag records in [dPoints], and a successful run with an output layer
    writes that many point rows. *)
Theorem segment_count (theUnits : string) (rows : list Row) (outLayer : string)
    (minDist : float) :
  let out := ProcessLayer theUnits rows outLayer minDist in
  let st := final (read_rows theUnits minDist rows init) in
  iCnt st = Z.of_nat (List.length (List.concat (values (dPoints st))))
  /\ (returned out = true -> outLayer <> ""%string ->
      Z.of_nat (List.length (pointRows out)) = iCnt st).
Proof.
  intros out st.
  assert (Hc : iCnt st = Z.of_nat (List.length (List.concat (values (dPoints st))))).
  { apply (flags_invariant theUnits minDist
             (fun d c => c = Z.of_nat (List.length (List.concat (values d)))));
      [|reflexivity].
    intros fid p0 p1 st0 Hi. unfold measure. cbn zeta.
    destruct (libm_hypot (fst p0 - fst p1) (snd p0 - snd p1) <? minDist)%float;
      cbn [dPoints iCnt]; [|exact Hi].
    destruct (dict_get fid (dPoints st0)) as [pnts|] eqn:Eg.
    - rewrite (count_set_present _ _ _ _ Eg). lia.
    - rewrite (count_set_absent _ _ _ Eg). lia. }
  split; [exact Hc|]. intros Hr Hne. rewrite Hc.
  unfold out, st in *. clear Hc.
  unfold ProcessLayer in *.
  destruct (read_rows theUnits minDist rows init) as [st0|st0]; cbn [final];
    [|discriminate].
  destruct rows; [discriminate|]. cbn [pointRows].
  apply String.eqb_neq in Hne. rewrite Hne. cbn [negb andb].
  destruct (dPoints st0); reflexivity.
Qed.

(** The point rows come polygon by polygon: they are the concatenation
    of groups under distinct polygon identifiers, and every record of a
    group carries the identifier of its group and a length below
    [minDist]. *)
Theorem segment_points_grouped (theUnits : string) (rows : list Row)
    (outLayer : string) (minDist : float) :
  exists groups : dict (list MidPnt),
    pointRows (ProcessLayer theUnits rows outLayer minDist)
    = List.concat (values groups)
    /\ NoDup (keys groups)
    /\ Forall (short_group minDist) groups.
Proof.
  destruct (segment_points theUnits rows outLayer minDist) as [->|(_ & _ & ->)].
  - exists []. repeat split; constructor.
  - eexists. split; [reflexivity|].
    apply (flags_invariant theUnits minDist
             (fun d _ => NoDup (keys d) /\ Forall (short_group minDist) d));
      [|split; constructor].
    intros fid p0 p1 st0 [Hnd Hall]. unfold measure. cbn zeta.
    destruct (libm_hypot (fst p0 - fst p1) (snd p0 - snd p1) <? minDist)%float
      eqn:Hlt; cbn [dPoints]; [|now split].
    destruct (dict_get fid (dPoints st0)) as [pnts|] eqn:Eg.
    + split; [now rewrite (keys_set_present _ _ _ _ Eg)|].
      apply Forall_dict_set; [exact Hall|].
      apply dict_get_some_in in Eg. rewrite Forall_forall in Hall.
      specialize (Hall _ Eg). unfold short_group in *. cbn [fst snd] in *.
      apply Forall_app. split; [exact Hall|].
      constructor; [|constructor]. cbn. auto.
    + apply dict_get_none in Eg.
      split.
      * rewrite dict_set_fresh by exact Eg. unfold keys. rewrite map_app.
        apply NoDup_app; [exact Hnd|repeat constructor; intros []|].
        intros k Hin [<-|[]]. now apply Eg.
      * apply Forall_dict_set; [exact Hall|].
        unfold short_group. cbn [fst snd].
        constructor; [|constructor]. cbn. auto.
Qed.

(** A cursor that starts with a polygon without geometry ends the run at
    once: it returns [False] with an empty table and no point row. *)
Theorem segment_first_null (theUnits : string) (row : Row) (rows : list Row)
    (outLayer : string) (minDist : float) :
  feat row = None ->
  let out := ProcessLayer theUnits (row :: rows) outLayer minDist in
  returned out = false /\ statsTable out = [] /\ pointRows out = [].
Proof.
  intros Hf. unfold ProcessLayer. cbn [read_rows].
  unfold read_row. rewrite Hf. unfold write_stats.
  destruct (acres_of theUnits (theArea row)); cbn; auto.
Qed.

(** On an empty cursor the segment tool returns [False], for every unit
    and threshold: the row variable it deletes after the loop was never
    assigned. *)
Theorem segment_empty_cursor (theUnits outLayer : string) (minDist : float) :
  let out := ProcessLayer theUnits [] outLayer minDist in
  returned out = false
  /\ messages out = [Traceback NameError]
  /\ statsTable out = [] /\ pointRows out = [].
Proof. cbn. auto. Qed.

End SegmentFlags.

(** The square in meters: one row, 100 square meters in acres, five
    points, average 8, smallest segment 10, single part. *)
Lemma stats_table_well_formed_witness :
  let rows := [ {| VertexProblems.fid := 1;
                   VertexProblems.feat := Some square_geometry;
                   VertexProblems.theArea := 100;
                   VertexProblems.thePerimeter := 40 |} ] in
  VertexProblems.statsTable
    (VertexProblems.ProcessLayer (libm := sample_libm) "meters" rows "QA" 11)
  = [ {| VertexProblems.POLYID := 1;
         VertexProblems.ACRES := (100 / 4046.85643)%float;
         VertexProblems.VERTICES := 5;
         VertexProblems.AVI := 8;
         VertexProblems.MIN_DIST := 10;
         VertexProblems.MULTIPART := 0 |} ].
Proof.
  intros rows.
  refine (proj2 (@stats_table_well_formed sample_libm "meters" rows _ "QA"
                   11%float _ _)).
  - discriminate.
  - constructor; [|constructor].
    exists square_geometry, (100 / 4046.85643)%float.
    split; [reflexivity|]. split.
    + repeat constructor; discriminate.
    + split; [vm_compute; reflexivity|].
      split; [reflexivity|vm_compute; reflexivity].
Defined.

Lemma scan_parts_minimum_witness :
  VertexProblems.iSeg
    (VertexProblems.scan_part (libm := sample_libm) 1 11 square []
       (VertexProblems.enter 1 square_geometry VertexProblems.init))
  = Some 10%float.
Proof.
  rewrite (@scan_parts_minimum sample_libm 1 11%float [square]
             (VertexProblems.enter 1 square_geometry VertexProblems.init)
             (VertexProblems.scan_part (libm := sample_libm) 1 11 square []
                (VertexProblems.enter 1 square_geometry VertexProblems.init))
             eq_refl).
  vm_compute. reflexivity.
Defined.

Lemma segment_first_null_witness :
  VertexProblems.returned
    (VertexProblems.ProcessLayer (libm := sample_libm) "meters"
       ({| VertexProblems.fid := 2; VertexProblems.feat := None;
           VertexProblems.theArea := 0; VertexProblems.thePerimeter := 0 |}
        :: segment_rows) "QA" 11)
  = false.
Proof.
  exact (proj1 (@segment_first_null sample_libm "meters"
                  {| VertexProblems.fid := 2; VertexProblems.feat := None;
                     VertexProblems.theArea := 0;
                     VertexProblems.thePerimeter := 0 |}
                  segment_rows "QA" 11%float eq_refl)).
Defined.

(** ** The choice of the working reference *)

Section Reference.

(** Without an output reference parameter both tools work in the
    reference of the input layer: no datum mismatch is reported,
    [ProcessLayer] is called, and when the input reference is projected it
    is the working reference, its unit name normalized. *)
Theorem no_requested_reference (inputSR requested : SpatialReference) :
  name requested = ""%string ->
  (~ In datum_mismatch_message (setup_log (SliverFinder.main inputSR requested))
   /\ exists cfg,
        setup_call (SliverFinder.main inputSR requested) = Some cfg
        /\ (upper (type inputSR) = "PROJECTED"%string -> cfg = configure inputSR))
  /\ (~ In datum_mismatch_message (setup_log (VertexProblems.main inputSR requested))
      /\ exists cfg,
           setup_call (VertexProblems.main inputSR requested) = Some cfg
           /\ (upper (type inputSR) = "PROJECTED"%string -> cfg = configure inputSR)).
Proof.
  intros Hname.
  unfold SliverFinder.main, VertexProblems.main, chosen_reference,
    datum_mismatch_message.
  rewrite Hname. cbn [String.eqb]. rewrite String.eqb_refl. cbn [negb app].
  destruct (String.eqb_spec (upper (type inputSR)) "PROJECTED") as [Hp|Hp];
    cbn [negb].
  - split; (split; [intros [H|[]]; discriminate H|]);
      eexists; (split; [reflexivity|reflexivity]).
  - destruct (String.eqb (datumName inputSR) "D_North_American_1983"
              || String.eqb (datumName inputSR) "D_WGS_1984");
      cbn [setup_log setup_call];
      (split; (split; [intros [H|[]]; discriminate H|]);
       eexists; (split; [reflexivity|intros; contradiction])).
Qed.

(** The fallback: when the chosen reference is not projected and the
    input datum is NAD 1983 or WGS 1984, both tools work in Web Mercator,
    in meters (the segment tool provided the datums match). *)
Theorem web_mercator_fallback (inputSR requested : SpatialReference) :
  upper (type (fst (chosen_reference inputSR requested))) <> "PROJECTED"%string ->
  datumName inputSR = "D_North_American_1983"%string
  \/ datumName inputSR = "D_WGS_1984"%string ->
  setup_call (SliverFinder.main inputSR requested) = Some web_mercator_config
  /\ (datumName inputSR = snd (chosen_reference inputSR requested) ->
      setup_call (VertexProblems.main inputSR requested)
      = Some web_mercator_config).
Proof.
  intros Hp Hd.
  unfold SliverFinder.main, VertexProblems.main.
  destruct (chosen_reference inputSR requested) as [sr outputDatum].
  cbn [fst snd] in *. apply String.eqb_neq in Hp. rewrite Hp. cbn [negb].
  assert (Hin : String.eqb (datumName inputSR) "D_North_American_1983"
                || String.eqb (datumName inputSR) "D_WGS_1984" = true).
  { destruct Hd as [-> | ->]; reflexivity. }
  rewrite Hin. split; [reflexivity|].
  intros <-. rewrite String.eqb_refl. reflexivity.
Qed.

(** With any other input datum and a reference that is not projected,
    both tools send an error message and call [ProcessLayer] all the same,
    in the reference that is not projected. *)
Theorem unsupported_reference_proceeds (inputSR requested : SpatialReference) :
  let sr := fst (chosen_reference inputSR requested) in
  upper (type sr) <> "PROJECTED"%string ->
  datumName inputSR <> "D_North_American_1983"%string ->
  datumName inputSR <> "D_WGS_1984"%string ->
  (setup_call (SliverFinder.main inputSR requested) = Some (configure sr)
   /\ In (AddMsg ("Unable to handle output coordinate system: "
                    ++ name sr ++ " " ++ nl
                    ++ snd (chosen_reference inputSR requested))%string 2)
         (setup_log (SliverFinder.main inputSR requested)))
  /\ (datumName inputSR = snd (chosen_reference inputSR requested) ->
      setup_call (VertexProblems.main inputSR requested) = Some (configure sr)
      /\ In (AddMsg ("Unable to handle input coordinate system: "
                       ++ name inputSR ++ " " ++ nl ++ datumName inputSR)%string 2)
            (setup_log (VertexProblems.main inputSR requested))).
Proof.
  intros sr Hp H83 H84. unfold sr in *. clear sr.
  unfold SliverFinder.main, VertexProblems.main.
  destruct (chosen_reference inputSR requested) as [sr outputDatum].
  cbn [fst snd] in *.
  apply String.eqb_neq in Hp. apply String.eqb_neq in H83.
  apply String.eqb_neq in H84.
  rewrite Hp, H83, H84. cbn [negb orb]. split.
  - split; [reflexivity|]. cbn. apply in_or_app. right. now left.
  - intros <-. rewrite String.eqb_refl. cbn. split; [reflexivity|now left].
Qed.

End Reference.

Lemma no_requested_reference_witness :
  setup_call (SliverFinder.main utm_nad83 no_reference)
  = Some (configure utm_nad83)
  /\ setup_call (VertexProblems.main utm_nad83 no_reference)
     = Some (configure utm_nad83).
Proof.
  destruct (no_requested_reference utm_nad83 no_reference eq_refl)
    as ((_ & c1 & H1 & E1) & (_ & c2 & H2 & E2)).
  rewrite H1, H2, (E1 eq_refl), (E2 eq_refl). split; reflexivity.
Defined.

Lemma web_mercator_fallback_witness :
  setup_call (SliverFinder.main gcs_nad83 no_reference) = Some web_mercator_config
  /\ setup_call (VertexProblems.main gcs_nad83 no_reference)
     = Some web_mercator_config.
Proof.
  assert (Hp : upper (type (fst (chosen_reference gcs_nad83 no_reference)))
               <> "PROJECTED"%string) by discriminate.
  destruct (web_mercator_fallback gcs_nad83 no_reference Hp (or_introl eq_refl))
    as [Hs Hv].
  split; [exact Hs|exact (Hv eq_refl)].
Defined.

Lemma unsupported_reference_proceeds_witness :
  setup_call (SliverFinder.main gcs_nad27 no_reference)
  = Some (configure gcs_nad27)
  /\ setup_call (VertexProblems.main gcs_nad27 no_reference)
     = Some (configure gcs_nad27).
Proof.
  assert (Hp : upper (type (fst (chosen_reference gcs_nad27 no_reference)))
               <> "PROJECTED"%string) by discriminate.
  assert (H83 : datumName gcs_nad27 <> "D_North_American_1983"%string)
    by discriminate.
  assert (H84 : datumName gcs_nad27 <> "D_WGS_1984"%string) by discriminate.
  destruct (unsupported_reference_proceeds gcs_nad27 no_reference Hp H83 H84)
    as [[Hs _] Hv].
  split; [exact Hs|exact (proj1 (Hv eq_refl))].
Defined.

(** ** The multipart message *)

Section MultipartMessage.
Context {libm : Libm}.

Import VertexProblems.

Lemma write_stats_continue (theUnits : string) (row : Row) (st st' : State) :
  write_stats theUnits row st = Continue st' ->
  bHasMultiPart st' = bHasMultiPart st /\ log st' = log st.
Proof.
  unfold write_stats, failed.
  destruct (acres_of theUnits (theArea row)); [|discriminate].
  destruct (iPnts st), (iSeg st), (iPartCnt st); try discriminate.
  destruct (float_div _ _); [discriminate|].
  intros H. injection H as <-. split; reflexivity.
Qed.

Lemma read_row_continue (theUnits : string) (minDist : float) (st st' : State)
    (row : Row) :
  read_row theUnits minDist st row = Continue st' ->
  bHasMultiPart st' = bHasMultiPart st || is_multipart row
  /\ (~ In multipart_message (log st) -> ~ In multipart_message (log st')).
Proof.
  unfold read_row, is_multipart. destruct (feat row) as [g|].
  - destruct (scan_parts (fid row) minDist (parts g) (enter (fid row) g st))
      as [e|st1] eqn:Es; [discriminate|].
    apply scan_parts_table in Es. destruct Es as (_ & Hl & Hm & _).
    intros Hw. apply write_stats_continue in Hw as [Hm' Hl'].
    rewrite Hm', Hm, Hl', Hl. cbn [enter bHasMultiPart log]. split.
    + assert (H0 : 0 <= partCount g) by (unfold partCount; lia).
      destruct (Z.eqb_spec (partCount g) 1) as [E1|E1];
        destruct (Z.eqb_spec (partCount g) 0) as [E0|E0];
        destruct (Z.ltb_spec 1 (partCount g)); cbn [orb]; try lia;
        destruct (bHasMultiPart st); reflexivity.
    + intros Hn Hin. apply in_app_or in Hin as [Hin|Hin]; [now apply Hn|].
      destruct (partCount g =? 0); [|contradiction].
      destruct Hin as [Hin|[]]. discriminate Hin.
  - intros Hw. apply write_stats_continue in Hw as [-> ->].
    cbn [say bHasMultiPart log]. split.
    + now rewrite orb_false_r.
    + intros Hn Hin. apply in_app_or in Hin as [Hin|Hin]; [now apply Hn|].
      destruct Hin as [Hin|[]]. discriminate Hin.
Qed.

Lemma read_rows_continue (theUnits : string) (minDist : float) (rows : list Row) :
  forall st st',
    read_rows theUnits minDist rows st = Continue st' ->
    bHasMultiPart st' = bHasMultiPart st || existsb is_multipart rows
    /\ (~ In multipart_message (log st) -> ~ In multipart_message (log st')).
Proof.
  induction rows as [|row rows IH]; intros st st' Hr.
  - cbn in Hr. injection Hr as <-. cbn. now rewrite orb_false_r.
  - cbn [read_rows] in Hr.
    destruct (read_row theUnits minDist st row) as [st1|st1] eqn:E1;
      [|discriminate].
    apply read_row_continue in E1 as [Hm1 Hl1].
    apply IH in Hr as [Hm Hl]. cbn [existsb].
    rewrite Hm, Hm1, orb_assoc. split; [reflexivity|auto].
Qed.

(** A run of the segment tool that succeeds sends the multipart message
    exactly when some polygon of the layer has more than one part. *)
Theorem multipart_reported (theUnits : string) (rows : list Row)
    (outLayer : string) (minDist : float) :
  let out := ProcessLayer theUnits rows outLayer minDist in
  returned out = true ->
  (In multipart_message (messages out)
   <-> exists row g, In row rows /\ feat row = Some g /\ 1 < partCount g).
Proof.
  intros out. unfold out, ProcessLayer.
  destruct (read_rows theUnits minDist rows init) as [st|st] eqn:Er;
    [|discriminate].
  destruct rows as [|row0 rows0] eqn:Erows; [discriminate|].
  rewrite <- Erows in *. intros _. cbn [messages].
  apply read_rows_continue in Er as [Hm Hl]. cbn [init bHasMultiPart orb] in Hm.
  assert (Hex : existsb is_multipart rows = true
                <-> exists row g, In row rows /\ feat row = Some g
                                  /\ 1 < partCount g).
  { rewrite existsb_exists. unfold is_multipart. split.
    - intros (row & Hin & Hrow). destruct (feat row) as [g|] eqn:Ef;
        [|discriminate]. exists row, g. apply Z.ltb_lt in Hrow. auto.
    - intros (row & g & Hin & Hf & Hlt). exists row. rewrite Hf.
      split; [exact Hin|now apply Z.ltb_lt]. }
  rewrite <- Hex, <- Hm. split.
  - intros Hin. apply in_app_or in Hin as [Hin|Hin].
    + exfalso. revert Hin. apply Hl. intros [].
    + destruct (bHasMultiPart st); [reflexivity|contradiction].
  - intros ->. apply in_or_app. right. now left.
Qed.

End MultipartMessage.

(** The square and the triangle as two parts of one polygon. *)
Lemma multipart_reported_witness :
  let rows := [ {| VertexProblems.fid := 5;
                   VertexProblems.feat :=
                     Some {| parts := [square; triangle]; pointCount := 9 |};
                   VertexProblems.theArea := 150;
                   VertexProblems.thePerimeter := 75 |} ] in
  In multipart_message
     (VertexProblems.messages
        (VertexProblems.ProcessLayer (libm := sample_libm) "meters" rows "QA" 1)).
Proof.
  intros rows.
  apply (@multipart_reported sample_libm "meters" rows "QA" 1%float).
  - vm_compute. reflexivity.
  - eexists _, _. split; [left; reflexivity|]. split; [reflexivity|].
    vm_compute. reflexivity.
Defined.

(** The square with threshold 11: four flags, four point rows. *)
Lemma segment_count_witness :
  let rows := [ {| VertexProblems.fid := 1;
                   VertexProblems.feat := Some square_geometry;
                   VertexProblems.theArea := 100;
                   VertexProblems.thePerimeter := 40 |} ] in
  VertexProblems.iCnt
    (final (VertexProblems.read_rows (libm := sample_libm) "meters" 11 rows
              VertexProblems.init)) = 4
  /\ Z.of_nat (List.length
                 (VertexProblems.pointRows
                    (VertexProblems.ProcessLayer (libm := sample_libm)
                       "meters" rows "QA" 11))) = 4.
Proof.
  intros rows.
  destruct (@segment_count sample_libm "meters" rows "QA" 11%float) as [Hc Hp].
  split; [vm_compute; reflexivity|].
  rewrite Hp; [vm_compute; reflexivity|vm_compute; reflexivity|discriminate].
Defined.
